(** * ev_charging_kiosk: the RFID scan loop and the Supabase helper

    A shallow embedding of [scripts/rfid_verification.py] (module [Rfid])
    and of [backend/supabase_db.py] (module [SupabaseDb]), followed by the
    properties of the scan/dedup/logging loop and of the directory helper.

    Conventions of the embedding:
    - a Python [str] is a [string] whose characters are code points below 256;
    - a Python [float] is a primitive binary64 [float]: the clock readings
      ([time.time()]) are floats and [current_time - last_scan_time] is the
      binary64 subtraction; the durations handed to [time.sleep] are kept as
      the decimal literals of the source (rationals);
    - a [dict] is a [gmap] with string keys;
    - a call that may raise returns an [outcome];
    - [print] and the clock do not fail. *)

From Stdlib Require Import Floats.PrimFloat Floats.SpecFloat Floats.FloatOps QArith Ascii String.
From stdpp Require Import gmap strings pretty.
#[local] Close Scope Q_scope.
#[local] Open Scope string_scope.
#[local] Open Scope list_scope.

(** ** Python values, exceptions and string helpers *)

Module Py.

(** Exceptions as the handlers of the program tell them apart:
    [except Exception] catches every [Exception msg] (with [msg = str(e)])
    and lets [KeyboardInterrupt] through. *)
Inductive exn : Type :=
| KeyboardInterrupt
| Exception (msg : string).

Inductive outcome (A : Type) : Type :=
| Returns (a : A)
| Raises (e : exn).
Arguments Returns {A} a.
Arguments Raises {A} e.

(** Scalar values found in the dictionaries exchanged with the remote store. *)
Inductive PyVal : Type :=
| VNone
| VBool (b : bool)
| VInt (n : Z)
| VStr (s : string)
| VFloat (f : float).

(** [str.isspace] on one character, for code points below 256:
    tab .. carriage return, the four separators 0x1c .. 0x1f, space,
    NEL (0x85) and the no-break space (0xa0). *)
Definition py_isspace (c : ascii) : bool :=
  let n := N_of_ascii c in
  ((9 <=? n)%N && (n <=? 13)%N) || ((28 <=? n)%N && (n <=? 32)%N)
  || (n =? 133)%N || (n =? 160)%N.

Fixpoint lstrip (s : string) : string :=
  match s with
  | EmptyString => EmptyString
  | String c s' => if py_isspace c then lstrip s' else s
  end.

Fixpoint rstrip (s : string) : string :=
  match s with
  | EmptyString => EmptyString
  | String c s' =>
      match rstrip s' with
      | EmptyString => if py_isspace c then EmptyString else String c EmptyString
      | r => String c r
      end
  end.

(** [s.strip()] *)
Definition strip (s : string) : string := rstrip (lstrip s).

(** Every character of [s] is whitespace. *)
Fixpoint all_space (s : string) : bool :=
  match s with
  | EmptyString => true
  | String c s' => py_isspace c && all_space s'
  end.

(** Truth value of a [str]: non-empty. *)
Definition str_truthy (s : string) : bool :=
  match s with EmptyString => false | _ => true end.

(** Truth value of an [Optional[str]]. *)
Definition opt_truthy (o : option string) : bool :=
  match o with Some s => str_truthy s | None => false end.

(** [response.data and len(response.data) > 0], and [if response.data:] *)
Definition has_rows {A : Type} (data : option (list A)) : bool :=
  match data with Some (_ :: _) => true | _ => false end.

(** [max(a, b)] on floats: the second argument wins only when it is
    strictly greater than the first. *)
Definition py_max (a b : float) : float :=
  if PrimFloat.ltb a b then b else a.

End Py.

(** ** scripts/rfid_verification.py *)

Module Rfid.
Import Py.

Definition USERS_TABLE : string := "users".
Definition LOGS_TABLE : string := "authentication_logs".

(** [scan_cooldown = 2] (seconds); a float compares with the integer 2 as
    with 2.0. *)
Definition scan_cooldown : float := 2%float.

(** Module-level globals read by the functions below: the hardware flag and
    whether [reader] holds a reader object ([false]: [reader is None]). *)
Record Config : Type := {
  RASPBERRY_PI : bool;
  reader : bool
}.

(** A row of [response.data] restricted to its text columns: a JSON string
    or null ([None]). These are the only columns this file reads
    ([id], [name]), passed on to parameters declared [Optional[str]]. *)
Abbreviation Row := (gmap string (option string)).

(** The [log_data] dictionary. *)
Abbreviation LogData := (gmap string PyVal).

(** Requests sent with [.execute()]:
    [supabase.table(t).select("*").eq(c, v)] and [supabase.table(t).insert(d)]. *)
Inductive request : Type :=
| Select (table column value : string)
| Insert (table : string) (log_data : LogData).

(** What the reader hands back as card id: the hardware library returns an
    integer; a string is admitted as well, the program converts with [str]. *)
Inductive card_uid : Type :=
| UidInt (n : Z)
| UidStr (s : string).

(** [str(id)] *)
Definition str_uid (u : card_uid) : string :=
  match u with
  | UidInt n => pretty n
  | UidStr s => s
  end.

(** Console lines, by the [print] statement that writes them. *)
Inductive line : Type :=
| LineBanner
| LineScanned (user_name : option string) (eid : string)
| LineNoUser (eid : string)
| LineScanFailed (e : string)
| LineShutdown
| LineError (e : string).

(** Observable actions. *)
Inductive action : Type :=
| Print (l : line)
| Remote (r : request)
| Sleep (d : Q)
| GpioCleanup.

(** The scan state kept by [main] in its local variables. *)
Record Locals : Type := {
  last_scanned_eid : option string;
  last_scan_time : float
}.

(** What the outside world does during one iteration of the loop. *)
Record Env : Type := {
  reader_read : outcome (card_uid * option string);
  clock : float;
  execute : request -> outcome (option (list Row));
  sleep : outcome unit
}.

(** An action together with the scan state held when it is performed. *)
Definition step : Type := Locals * action.

(** Computations: they read the world, thread the scan state, perform
    actions in order and return or raise. *)
Definition M (A : Type) : Type :=
  Env -> Locals -> outcome A * Locals * list step.

Definition ret {A : Type} (a : A) : M A :=
  fun _ st => (Returns a, st, []).

Definition bind {A B : Type} (m : M A) (k : A -> M B) : M B :=
  fun env st =>
    match m env st with
    | (Returns a, st1, tr1) =>
        match k a env st1 with
        | (r, st2, tr2) => (r, st2, tr1 ++ tr2)
        end
    | (Raises e, st1, tr1) => (Raises e, st1, tr1)
    end.

#[global] Instance M_ret : MRet M := @ret.
#[global] Instance M_bind : MBind M := fun A B k m => bind m k.

Definition raise {A : Type} (e : exn) : M A :=
  fun _ st => (Raises e, st, []).

(** [try: body except Exception as e: handler(str(e))] *)
Definition try_except {A : Type} (body : M A) (handler : string -> M A) : M A :=
  fun env st =>
    match body env st with
    | (Raises (Exception msg), st1, tr1) =>
        match handler msg env st1 with
        | (r, st2, tr2) => (r, st2, tr1 ++ tr2)
        end
    | other => other
    end.

Definition emit (a : action) : M unit :=
  fun _ st => (Returns tt, st, [(st, a)]).

(** [....execute()], then [response.data] *)
Definition remote_call (r : request) : M (option (list Row)) :=
  fun env st => (execute env r, st, [(st, Remote r)]).

(** [time.time()] *)
Definition time_time : M float :=
  fun env st => (Returns (clock env), st, []).

(** [time.sleep(d)] *)
Definition time_sleep (d : Q) : M unit :=
  fun env st => (sleep env, st, [(st, Sleep d)]).

Definition get_locals : M Locals :=
  fun _ st => (Returns st, st, []).

Definition set_locals (st' : Locals) : M unit :=
  fun _ _ => (Returns tt, st', []).

(** [user[key]] *)
Definition subscript (user : Row) (key : string) : M (option string) :=
  match user !! key with
  | Some v => ret v
  | None => raise (Exception ("'" +:+ key +:+ "'"))
  end.

(** An [Optional[str]] stored in a dictionary. *)
Definition of_optional (o : option string) : PyVal :=
  match o with Some s => VStr s | None => VNone end.

(** An [Optional[str]] inside an f-string. *)
Definition fmt_optional (o : option string) : string :=
  match o with Some s => s | None => "None" end.

(** The [log_data] dictionary built by [log_authentication_event]:
    [user_id] and [user_name] are set only when they are truthy. *)
Definition build_log_data
  (eid event_type : string) (success : bool)
  (user_id user_name message : option string) : LogData :=
  let log_data : LogData :=
    <["message" := of_optional message]>
      (<["success" := VBool success]>
         (<["event_type" := VStr event_type]>
            (<["eid" := VStr eid]> ∅))) in
  let log_data :=
    if opt_truthy user_id
    then <["user_id" := of_optional user_id]> log_data else log_data in
  if opt_truthy user_name
  then <["user_name" := of_optional user_name]> log_data else log_data.

Definition log_authentication_event
  (eid event_type : string) (success : bool)
  (user_id user_name message : option string) : M bool :=
  try_except
    (data ← remote_call
       (Insert LOGS_TABLE
          (build_log_data eid event_type success user_id user_name message));
     ret (has_rows data))
    (fun _ => ret false).

(** [f"User {user_name} scanned successfully"] *)
Definition login_message (user_name : option string) : option string :=
  Some ("User " +:+ fmt_optional user_name +:+ " scanned successfully").

(** [f"No user found with EID: {eid}"] *)
Definition failed_message (eid : string) : option string :=
  Some ("No user found with EID: " +:+ eid).

Definition scan_and_log (eid : string) : M unit :=
  try_except
    (data ← remote_call (Select USERS_TABLE "eid" eid);
     match data with
     | Some (user :: _) =>
         user_id ← subscript user "id";
         user_name ← subscript user "name";
         emit (Print (LineScanned user_name eid));;
         log_authentication_event eid "login" true user_id user_name
           (login_message user_name);;
         ret tt
     | _ =>
         emit (Print (LineNoUser eid));;
         log_authentication_event eid "failed" false None None
           (failed_message eid);;
         ret tt
     end)
    (fun e => emit (Print (LineScanFailed e))).

Definition read_rfid_card (cfg : Config) : M (option (string * string)) :=
  if negb (RASPBERRY_PI cfg) || negb (reader cfg) then ret None
  else
    try_except
      (fun env st =>
         match reader_read env with
         | Returns (id, text) =>
             let text' :=
               match text with
               | Some t => if str_truthy t then strip t else ""
               | None => ""
               end in
             (Returns (Some (str_uid id, text')), st, [])
         | Raises e => (Raises e, st, [])
         end)
      (fun _ => ret None).

(** The duplicate test of the loop: the card read is the last one scanned
    and [(current_time - last_scan_time) < scan_cooldown]. *)
Definition in_cooldown (st : Locals) (eid : string) (current_time : float) : bool :=
  bool_decide (last_scanned_eid st = Some eid)
  && PrimFloat.ltb (PrimFloat.sub current_time (last_scan_time st)) scan_cooldown.

(** One pass through the body of [while True]. *)
Definition main_iter (cfg : Config) : M unit :=
  result ← read_rfid_card cfg;
  current_time ← time_time;
  match result with
  | None => time_sleep (1 # 10)
  | Some (card_id, card_text) =>
      let eid := strip card_id in
      st ← get_locals;
      if in_cooldown st eid current_time
      then time_sleep (1 # 10)
      else
        scan_and_log eid;;
        set_locals {| last_scanned_eid := Some eid;
                      last_scan_time := current_time |};;
        time_sleep (1 # 2)
  end.

(** [while True: ...] observed over the iterations of [ticks]; the loop
    leaves only by an exception. *)
Fixpoint while_true (cfg : Config) (ticks : list Env) (st : Locals)
  : outcome unit * Locals * list step :=
  match ticks with
  | [] => (Returns tt, st, [])
  | env :: rest =>
      match main_iter cfg env st with
      | (Returns _, st1, tr1) =>
          match while_true cfg rest st1 with
          | (r, st2, tr2) => (r, st2, tr1 ++ tr2)
          end
      | (Raises e, st1, tr1) => (Raises e, st1, tr1)
      end
  end.

Inductive status : Type :=
| Running
| Exited.

(** [last_scanned_eid = None] and [last_scan_time = 0]; in a subtraction
    from a float the integer 0 stands for 0.0. *)
Definition initial_locals : Locals :=
  {| last_scanned_eid := None; last_scan_time := 0%float |}.

(** The [finally] block of [main]. *)
Definition finally (cfg : Config) (st : Locals) : list step :=
  if RASPBERRY_PI cfg then [(st, GpioCleanup)] else [].

(** The line printed by the [except] clause of [main] that catches [e]. *)
Definition handler_line (e : exn) : line :=
  match e with
  | KeyboardInterrupt => LineShutdown
  | Exception msg => LineError msg
  end.

Definition main (cfg : Config) (ticks : list Env) : status * Locals * list step :=
  let banner := [(initial_locals, Print LineBanner)] in
  match while_true cfg ticks initial_locals with
  | (Returns _, st, tr) => (Running, st, banner ++ tr)
  | (Raises e, st, tr) =>
      (Exited, st, banner ++ tr ++ [(st, Print (handler_line e))] ++ finally cfg st)
  end.

(** *** Observations on traces *)

(** The three parts of a run. *)
Definition result_of {A : Type} (run : outcome A * Locals * list step) : outcome A :=
  fst (fst run).
Definition locals_of {A : Type} (run : outcome A * Locals * list step) : Locals :=
  snd (fst run).
Definition trace_of {A : Type} (run : outcome A * Locals * list step) : list step :=
  snd run.

(** What [read_rfid_card] hands to the loop in a given world. *)
Definition card_read (cfg : Config) (env : Env) : outcome (option (string * string)) :=
  fst (fst (read_rfid_card cfg env initial_locals)).

(** What is left of the result of [log_authentication_event] in
    [scan_and_log]: only an interrupt gets through. *)
Definition after_insert (o : outcome (option (list Row))) : outcome unit :=
  match o with
  | Raises KeyboardInterrupt => Raises KeyboardInterrupt
  | _ => Returns tt
  end.

(** Card ids sent to the directory. *)
Definition lookups (tr : list step) : list string :=
  omap (fun s : step =>
          match snd s with
          | Remote (Select _ _ eid) => Some eid
          | _ => None
          end) tr.

(** Authentication events handed to the audit log. *)
Definition appended (tr : list step) : list LogData :=
  omap (fun s : step =>
          match snd s with
          | Remote (Insert _ log_data) => Some log_data
          | _ => None
          end) tr.

(** Remote requests, each with the scan state held when it is issued. *)
Definition remote_steps (tr : list step) : list (Locals * request) :=
  omap (fun s : step =>
          match snd s with
          | Remote r => Some (fst s, r)
          | _ => None
          end) tr.

(** The reads forwarded to the directory during a run, with the clock
    reading of their iteration. *)
Fixpoint accepted_log (cfg : Config) (ticks : list Env) (st : Locals)
  : list (string * float) :=
  match ticks with
  | [] => []
  | env :: rest =>
      match main_iter cfg env st with
      | (r, st1, tr1) =>
          map (fun eid => (eid, clock env)) (lookups tr1)
          ++ match r with
             | Returns _ => accepted_log cfg rest st1
             | Raises _ => []
             end
      end
  end.

(** The elapsed time as the program computes it, [t2 - t1] in binary64,
    is below [scan_cooldown]. *)
Definition within_cooldown (t1 t2 : float) : bool :=
  PrimFloat.ltb (PrimFloat.sub t2 t1) scan_cooldown.



(** The world [env] with every insert doing [o]. *)
Definition with_insert (o : outcome (option (list Row))) (env : Env) : Env :=
  {| reader_read := reader_read env;
     clock := clock env;
     execute := fun r =>
       match r with
       | Insert _ _ => o
       | Select _ _ _ => execute env r
       end;
     sleep := sleep env |}.

(** An insert that fails: it raises an [Exception] or returns no row. *)
Definition failed_append (o : outcome (option (list Row))) : Prop :=
  match o with
  | Returns data => has_rows data = false
  | Raises (Exception _) => True
  | Raises KeyboardInterrupt => False
  end.


(** *** Worlds used in the examples *)

(** The hardware is present and the reader object was created. *)
Definition on_pi : Config := {| RASPBERRY_PI := true; reader := true |}.

(** One iteration with card [uid] on the reader at clock reading [t]: the
    directory query does [answer], the insert into the log does [inserted],
    the sleep does [slept]. *)
Definition card_world (uid : Z) (t : float)
  (answer inserted : outcome (option (list Row))) (slept : outcome unit) : Env :=
  {| reader_read := Returns (UidInt uid, Some "");
     clock := t;
     execute := fun r =>
       match r with
       | Select _ _ _ => answer
       | Insert _ _ => inserted
       end;
     sleep := slept |}.

(** One iteration with no card on the reader ([reader.read()] raises). *)
Definition idle_world (t : float) (slept : outcome unit) : Env :=
  {| reader_read := Raises (Exception "no card");
     clock := t;
     execute := fun _ => Returns None;
     sleep := slept |}.

(** The insert returns the stored row. *)
Definition stored : outcome (option (list Row)) := Returns (Some [∅]).

(** The user of scenario A. *)
Definition alice : Row :=
  <["eid" := Some "123"]> (<["name" := Some "Alice"]> (<["id" := Some "u1"]> ∅)).

(** A user whose name is the empty string. *)
Definition nameless : Row :=
  <["eid" := Some "123"]> (<["name" := Some ""]> (<["id" := Some "u1"]> ∅)).

End Rfid.

(** ** backend/supabase_db.py *)

Module SupabaseDb.
Import Py.

Definition USERS_TABLE : string := "users".

Abbreviation Dict := (gmap string PyVal).

(** Requests sent with [.execute()]:
    [supabase.table(t).select("*").eq(c, v)] and
    [supabase.table(t).update(changes).eq(c, v)]. *)
Inductive request : Type :=
| Select (table column value : string)
| Update (table : string) (changes : Dict) (column value : string).

(** The client object: what [.execute()] does with a request, as
    [response.data] or an exception. The module global [supabase] is an
    [option Client] ([None] when the credentials are not set). *)
Definition Client : Type := request -> outcome (option (list Dict)).

Inductive action : Type :=
| Call (r : request)
| Print (s : string).

(** [response.data[0]] when there is one, else [None]. *)
Definition first_row (data : option (list Dict)) : option Dict :=
  match data with
  | Some (u :: _) => Some u
  | _ => None
  end.

Definition get_user_by_eid (supabase : option Client) (eid : string)
  : outcome (option Dict) * list action :=
  match supabase with
  | None => (Returns None, [])
  | Some client =>
      let r := Select USERS_TABLE "eid" (strip eid) in
      match client r with
      | Returns data => (Returns (first_row data), [Call r])
      | Raises (Exception e) =>
          (Returns None, [Call r; Print ("[ERROR] Failed to get user by EID: " +:+ e)])
      | Raises KeyboardInterrupt => (Raises KeyboardInterrupt, [Call r])
      end
  end.

(** [new_balance] is declared [float]; on a float [float(new_balance)] is
    the value itself. *)
Definition update_user_balance (supabase : option Client) (eid : string)
  (new_balance : float) : outcome bool * list action :=
  match supabase with
  | None => (Returns false, [])
  | Some client =>
      let new_balance := py_max 0%float new_balance in
      let r := Update USERS_TABLE (<["current_balance" := VFloat new_balance]> ∅)
                 "eid" (strip eid) in
      match client r with
      | Returns data => (Returns (has_rows data), [Call r])
      | Raises (Exception e) =>
          (Returns false, [Call r; Print ("[ERROR] Failed to update user balance: " +:+ e)])
      | Raises KeyboardInterrupt => (Raises KeyboardInterrupt, [Call r])
      end
  end.

Definition update_user_balance_by_id (supabase : option Client) (user_id : string)
  (new_balance : float) : outcome bool * list action :=
  match supabase with
  | None => (Returns false, [])
  | Some client =>
      let new_balance := py_max 0%float new_balance in
      let r := Update USERS_TABLE (<["current_balance" := VFloat new_balance]> ∅)
                 "id" user_id in
      match client r with
      | Returns data => (Returns (has_rows data), [Call r])
      | Raises (Exception e) =>
          (Returns false,
           [Call r; Print ("[ERROR] Failed to update user balance by ID: " +:+ e)])
      | Raises KeyboardInterrupt => (Raises KeyboardInterrupt, [Call r])
      end
  end.

(** The balances written by the [Update] requests of a trace. *)
Definition written_balances (tr : list action) : list PyVal :=
  omap (fun a =>
          match a with
          | Call (Update _ changes _ _) => changes !! "current_balance"
          | _ => None
          end) tr.

(** Modelled from the spec: the [eq] filter of the remote directory, an
    external service (section 6: query "record where cardId == X"). It
    keeps the rows whose column holds exactly the given string. *)
Definition eq_filter (column value : string) (row : Dict) : bool :=
  match row !! column with
  | Some (VStr s) => String.eqb s value
  | _ => false
  end.

(** Modelled from the spec: the remote directory answering from a table
    [rows] (section 6: zero or more records "where cardId == X"). *)
Definition table_client (rows : list Dict) : Client :=
  fun r =>
    match r with
    | Select _ column value =>
        Returns (Some (List.filter (eq_filter column value) rows))
    | Update _ changes column value =>
        Returns (Some ((fun row => changes ∪ row)
                         <$> List.filter (eq_filter column value) rows))
    end.

(** *** Conversions between the database and the API format *)

(** The two built-ins of the Python runtime that are not modelled: the
    text of a float ([repr]) and the parsing of a float from a string. *)
Class Builtins : Type := {
  float_repr : float -> string;
  float_of_str : string -> outcome float
}.

(** [float(n)] on an [int]: the nearest binary64 (ties to even), or
    [OverflowError]. *)
Definition float_of_int (n : Z) : outcome float :=
  match binary_normalize prec emax n 0 false with
  | S754_infinity _ => Raises (Exception "int too large to convert to float")
  | sf => Returns (SF2Prim sf)
  end.

Section Conversions.
Context `{Builtins}.

(** [str(v)] *)
Definition py_str (v : PyVal) : string :=
  match v with
  | VNone => "None"
  | VBool true => "True"
  | VBool false => "False"
  | VInt n => pretty n
  | VStr s => s
  | VFloat f => float_repr f
  end.

(** [float(v)] *)
Definition py_float (v : PyVal) : outcome float :=
  match v with
  | VNone =>
      Raises (Exception
        "float() argument must be a string or a real number, not 'NoneType'")
  | VBool true => Returns 1%float
  | VBool false => Returns 0%float
  | VInt n => float_of_int n
  | VStr s => float_of_str s
  | VFloat f => Returns f
  end.

(** [d.get(key, dflt)] *)
Definition dict_get (d : Dict) (key : string) (dflt : PyVal) : PyVal :=
  default dflt (d !! key).

Definition convert_to_api_format (user : Dict) : outcome Dict :=
  match py_float (dict_get user "current_balance" (VFloat 0%float)) with
  | Raises e => Raises e
  | Returns balance =>
      Returns
        (<["id" := VStr (py_str (dict_get user "id" (VStr "")))]>
        (<["name" := dict_get user "name" (VStr "")]>
        (<["rfidCardId" := VStr (py_str (dict_get user "eid" (VStr "")))]>
        (<["balance" := VFloat balance]>
        (<["phoneNumber" := dict_get user "contact_number" (VStr "")]>
        (<["createdAt" := dict_get user "created_at" (VStr "")]> ∅))))))
  end.

Definition convert_from_api_format (user : Dict) : outcome Dict :=
  match py_float (dict_get user "balance" (VFloat 0%float)) with
  | Raises e => Raises e
  | Returns balance =>
      Returns
        (<["eid" := VStr (py_str (dict_get user "rfidCardId" (VStr "")))]>
        (<["name" := dict_get user "name" (VStr "")]>
        (<["contact_number" := dict_get user "phoneNumber" (VStr "")]>
        (<["current_balance" := VFloat balance]>
        (<["state" := dict_get user "state" (VBool true)]> ∅)))))
  end.

End Conversions.

(** *** Tables used in the examples *)

(** The directory row of scenario A. *)
Definition alice : Dict :=
  <["eid" := VStr "123"]> (<["name" := VStr "Alice"]> (<["id" := VStr "u1"]>
  (<["current_balance" := VFloat 50%float]> ∅))).

(** A client whose every request fails. *)
Definition unreachable : Client := fun _ => Raises (Exception "connection refused").

(** An API record. *)
Definition api_alice : Dict :=
  <["id" := VStr "u1"]> (<["name" := VStr "Alice"]> (<["rfidCardId" := VStr "123"]>
  (<["balance" := VFloat 50%float]> (<["phoneNumber" := VStr "555-0100"]>
  (<["createdAt" := VStr "2024-01-01"]> ∅))))).

End SupabaseDb.

(** ** More string methods *)

Module PyStr.
Import Py.

(** [c.lower()] on one character, for code points below 256: the letters
    A .. Z and the capital letters of Latin-1 (0xc0 .. 0xde without the
    multiplication sign 0xd7) move up by 32. *)
Definition lower_char (c : ascii) : ascii :=
  let n := N_of_ascii c in
  if ((65 <=? n)%N && (n <=? 90)%N) || ((192 <=? n)%N && (n <=? 214)%N)
     || ((216 <=? n)%N && (n <=? 222)%N)
  then ascii_of_N (n + 32) else c.

(** [s.lower()] *)
Fixpoint lower (s : string) : string :=
  match s with
  | EmptyString => EmptyString
  | String c s' => String (lower_char c) (lower s')
  end.

(** [s.startswith(p)] *)
Fixpoint startswith (s p : string) : bool :=
  match p, s with
  | EmptyString, _ => true
  | String a p', String b s' => Ascii.eqb a b && startswith s' p'
  | String _ _, EmptyString => false
  end.

(** [needle in hay] *)
Fixpoint contains (needle hay : string) : bool :=
  startswith hay needle
  || match hay with
     | EmptyString => false
     | String _ hay' => contains needle hay'
     end.

(** [s.split()]: the maximal runs of characters that are not whitespace. *)
Fixpoint split (s : string) : list string :=
  match s with
  | EmptyString => []
  | String c s' =>
      if py_isspace c then split s'
      else
        match s' with
        | EmptyString => [String c EmptyString]
        | String d _ =>
            if py_isspace d then String c EmptyString :: split s'
            else
              match split s' with
              | w :: ws => String c w :: ws
              | [] => [String c EmptyString]
              end
        end
  end.

(** [a or b] on two [Optional[str]] *)
Definition py_or (a b : option string) : option string :=
  if opt_truthy a then a else b.

(** [type(v).__name__] *)
Definition type_name (v : PyVal) : string :=
  match v with
  | VNone => "NoneType"
  | VBool _ => "bool"
  | VInt _ => "int"
  | VStr _ => "str"
  | VFloat _ => "float"
  end.

End PyStr.

(** ** The module-level code of both scripts *)

Module Startup.
Import Py PyStr Rfid.

(** The machine the scripts start on: which libraries import, the
    environment after [load_dotenv()], what [create_client] and
    [SimpleMFRC522()] do. *)
Record Host (C : Type) : Type := {
  hardware_libs : bool;
  supabase_lib : bool;
  environ : gmap string string;
  create_client : string -> string -> outcome C;
  new_reader : outcome unit
}.
Arguments hardware_libs {C} h.
Arguments supabase_lib {C} h.
Arguments environ {C} h.
Arguments create_client {C} h url key.
Arguments new_reader {C} h.

(** How the import of [rfid_verification] ends: [sys.exit(code)], an
    exception that nothing catches, or the globals [RASPBERRY_PI], [reader]
    and [supabase] that [main] will run with. *)
Inductive boot (C : Type) : Type :=
| Exit (code : Z)
| Crashed (e : exn)
| Ready (cfg : Config) (supabase : C).
Arguments Exit {C} code.
Arguments Crashed {C} e.
Arguments Ready {C} cfg supabase.

Definition missing_credentials : list string :=
  ["[ERROR] Missing Supabase credentials!";
   "Please set SUPABASE_URL and SUPABASE_KEY in .env file";
   "Or set environment variables:";
   "  export SUPABASE_URL=https://your-project.supabase.co";
   "  export SUPABASE_KEY=your-service-role-key"].

(** Lines 14-62 of [rfid_verification.py], with the lines printed. *)
Definition rfid_startup {C : Type} (h : Host C) : boot C * list string :=
  let hw := hardware_libs h in
  let out1 :=
    if hw then []
    else ["[WARNING] RPi.GPIO or mfrc522 not found. Running in simulation mode."] in
  if negb (supabase_lib h)
  then (Exit 1,
        out1 ++ ["[ERROR] supabase-py not installed. Install with: pip install supabase"])
  else
    let SUPABASE_URL := environ h !! "SUPABASE_URL" in
    let SUPABASE_KEY :=
      py_or (environ h !! "SUPABASE_KEY") (environ h !! "SUPABASE_SERVICE_ROLE_KEY") in
    match SUPABASE_URL, SUPABASE_KEY with
    | Some url, Some key =>
        if negb (str_truthy url) || negb (str_truthy key)
        then (Exit 1, out1 ++ missing_credentials)
        else
          match create_client h url key with
          | Raises e => (Crashed e, out1)
          | Returns client =>
              if hw then
                match new_reader h with
                | Returns _ =>
                    (Ready {| RASPBERRY_PI := true; reader := true |} client,
                     out1 ++ ["[INFO] RFID reader initialized"])
                | Raises (Exception e) =>
                    (Ready {| RASPBERRY_PI := false; reader := false |} client,
                     out1 ++ ["[ERROR] Failed to initialize RFID reader: " +:+ e])
                | Raises KeyboardInterrupt => (Crashed KeyboardInterrupt, out1)
                end
              else (Ready {| RASPBERRY_PI := false; reader := false |} client, out1)
          end
    | _, _ => (Exit 1, out1 ++ missing_credentials)
    end.

(** Lines 9-28 of [supabase_db.py]: the global [supabase], or the
    [ImportError] of the unguarded import. *)
Definition db_startup {C : Type} (h : Host C) : outcome (option C) * list string :=
  if negb (supabase_lib h)
  then (Raises (Exception "No module named 'supabase'"), [])
  else
    match environ h !! "SUPABASE_URL", environ h !! "SUPABASE_KEY" with
    | Some url, Some key =>
        if str_truthy url && str_truthy key
        then
          match create_client h url key with
          | Returns client => (Returns (Some client), [])
          | Raises (Exception e) =>
              (Returns None, ["[WARNING] Failed to initialize Supabase client: " +:+ e])
          | Raises KeyboardInterrupt => (Raises KeyboardInterrupt, [])
          end
        else
          (Returns None,
           ["[WARNING] SUPABASE_URL and/or SUPABASE_KEY not set. Supabase features will be disabled."])
    | _, _ =>
        (Returns None,
         ["[WARNING] SUPABASE_URL and/or SUPABASE_KEY not set. Supabase features will be disabled."])
    end.

End Startup.

(** ** backend/supabase_db.py: the remaining operations *)

Module SupabaseCrud.
Import Py PyStr SupabaseDb.

(** All the requests of the module: the filtered ones of [SupabaseDb],
    [select("*")] without a filter, [insert(user_data)] and
    [delete().eq(c, v)]. *)
Inductive request : Type :=
| Filtered (r : SupabaseDb.request)
| SelectAll (table : string)
| Insert (table : string) (user_data : Dict)
| Delete (table column value : string).

Definition Client : Type := request -> outcome (option (list Dict)).

(** The same client seen by the functions that only send filtered requests. *)
Definition narrow (client : Client) : SupabaseDb.Client :=
  fun r => client (Filtered r).

Inductive action : Type :=
| Call (r : request)
| Print (s : string).

Definition load_users (supabase : option Client) : outcome (list Dict) * list action :=
  match supabase with
  | None => (Returns [], [])
  | Some client =>
      let r := SelectAll USERS_TABLE in
      match client r with
      | Returns data =>
          (Returns (match data with
                    | Some (u :: us) => u :: us
                    | _ => []
                    end), [Call r])
      | Raises (Exception e) =>
          (Returns [], [Call r; Print ("[ERROR] Failed to load users from Supabase: " +:+ e)])
      | Raises KeyboardInterrupt => (Raises KeyboardInterrupt, [Call r])
      end
  end.

Definition get_user_by_id (supabase : option SupabaseDb.Client) (user_id : string)
  : outcome (option Dict) * list SupabaseDb.action :=
  match supabase with
  | None => (Returns None, [])
  | Some client =>
      let r := Select USERS_TABLE "id" user_id in
      match client r with
      | Returns data => (Returns (first_row data), [SupabaseDb.Call r])
      | Raises (Exception e) =>
          (Returns None,
           [SupabaseDb.Call r; SupabaseDb.Print ("[ERROR] Failed to get user by ID: " +:+ e)])
      | Raises KeyboardInterrupt => (Raises KeyboardInterrupt, [SupabaseDb.Call r])
      end
  end.

(** The [for] loop of [get_user_by_name]: [name_lower] is the query, the
    result is the user returned, [None] at the end of the list, or the
    exception raised on the way ([.lower()] on a name that is no string,
    [split()[0]] on a name without a word). *)
Fixpoint search_by_name (name_lower : string) (users : list Dict)
  : outcome (option Dict) :=
  match users with
  | [] => Returns None
  | user :: rest =>
      match dict_get user "name" (VStr "") with
      | VStr s =>
          let user_name := lower s in
          if contains name_lower user_name then Returns (Some user)
          else
            match split user_name with
            | [] => Raises (Exception "list index out of range")
            | w :: _ =>
                if String.eqb (lower w) name_lower then Returns (Some user)
                else search_by_name name_lower rest
            end
      | v =>
          Raises (Exception
                    ("'" +:+ type_name v +:+ "' object has no attribute 'lower'"))
      end
  end.

Definition get_user_by_name (supabase : option Client) (name : string)
  : outcome (option Dict) * list action :=
  match load_users supabase with
  | (Raises (Exception e), tr) =>
      (Returns None, tr ++ [Print ("[ERROR] Failed to get user by name: " +:+ e)])
  | (Raises KeyboardInterrupt, tr) => (Raises KeyboardInterrupt, tr)
  | (Returns users, tr) =>
      let name_lower := strip (lower name) in
      match search_by_name name_lower users with
      | Returns found => (Returns found, tr)
      | Raises (Exception e) =>
          (Returns None, tr ++ [Print ("[ERROR] Failed to get user by name: " +:+ e)])
      | Raises KeyboardInterrupt => (Raises KeyboardInterrupt, tr)
      end
  end.

Definition create_user (supabase : option Client) (user_data : Dict)
  : outcome (option Dict) * list action :=
  match supabase with
  | None => (Returns None, [])
  | Some client =>
      let r := Insert USERS_TABLE user_data in
      match client r with
      | Returns data => (Returns (first_row data), [Call r])
      | Raises (Exception e) =>
          (Returns None, [Call r; Print ("[ERROR] Failed to create user: " +:+ e)])
      | Raises KeyboardInterrupt => (Raises KeyboardInterrupt, [Call r])
      end
  end.

Definition update_user (supabase : option SupabaseDb.Client) (eid : string)
  (updates : Dict) : outcome bool * list SupabaseDb.action :=
  match supabase with
  | None => (Returns false, [])
  | Some client =>
      let r := Update USERS_TABLE updates "eid" (strip eid) in
      match client r with
      | Returns data => (Returns (has_rows data), [SupabaseDb.Call r])
      | Raises (Exception e) =>
          (Returns false,
           [SupabaseDb.Call r; SupabaseDb.Print ("[ERROR] Failed to update user: " +:+ e)])
      | Raises KeyboardInterrupt => (Raises KeyboardInterrupt, [SupabaseDb.Call r])
      end
  end.

Definition delete_user (supabase : option Client) (eid : string)
  : outcome bool * list action :=
  match supabase with
  | None => (Returns false, [])
  | Some client =>
      let r := Delete USERS_TABLE "eid" (strip eid) in
      match client r with
      | Returns _ => (Returns true, [Call r])
      | Raises (Exception e) =>
          (Returns false, [Call r; Print ("[ERROR] Failed to delete user: " +:+ e)])
      | Raises KeyboardInterrupt => (Raises KeyboardInterrupt, [Call r])
      end
  end.

(** *** Observations *)

(** The requests of a trace. *)
Definition calls (tr : list action) : list request :=
  omap (fun a => match a with Call r => Some r | Print _ => None end) tr.

Definition filtered_calls (tr : list SupabaseDb.action) : list SupabaseDb.request :=
  omap (fun a =>
          match a with
          | SupabaseDb.Call r => Some r
          | SupabaseDb.Print _ => None
          end) tr.

(** The user's name is a string and the lower-cased query occurs in its
    lower-cased form. *)
Definition name_matches (name_lower : string) (user : Dict) : bool :=
  match dict_get user "name" (VStr "") with
  | VStr s => contains name_lower (lower s)
  | _ => false
  end.

(** The user's name is a string with at least one word. *)
Definition has_name (user : Dict) : bool :=
  match dict_get user "name" (VStr "") with
  | VStr s => match split s with [] => false | _ => true end
  | _ => false
  end.

(** No outcome is an [Exception]. *)
Definition no_exception {A : Type} (o : outcome A) : Prop :=
  match o with
  | Raises (Exception _) => False
  | _ => True
  end.

(** *** Tables used in the examples *)

Definition bob : Dict :=
  <["eid" := VStr "456"]> (<["name" := VStr "Bob Stone"]> (<["id" := VStr "u2"]> ∅)).

(** A row whose name was never filled in. *)
Definition blank : Dict :=
  <["eid" := VStr "789"]> (<["name" := VStr ""]> (<["id" := VStr "u3"]> ∅)).

(** A row whose name is null. *)
Definition unnamed : Dict :=
  <["eid" := VStr "790"]> (<["name" := VNone]> (<["id" := VStr "u4"]> ∅)).

(** A client that answers every request with the rows [rows]. *)
Definition serving (rows : list Dict) : Client := fun _ => Returns (Some rows).

End SupabaseCrud.

(** ** More observations on the scan loop *)

Module RfidObs.
Import Py Rfid.

(** The durations slept along a trace. *)
Definition sleeps (tr : list step) : list Q :=
  omap (fun s : step =>
          match snd s with
          | Sleep d => Some d
          | _ => None
          end) tr.

(** [read_rfid_card]'s first test: the loop runs without a reader. *)
Definition simulation (cfg : Config) : bool :=
  negb (RASPBERRY_PI cfg) || negb (reader cfg).

(** The scan state after the accepted reads [log], starting from [st]. *)
Definition last_accepted (st : Locals) (log : list (string * float)) : Locals :=
  fold_left (fun _ entry =>
               {| last_scanned_eid := Some (fst entry); last_scan_time := snd entry |})
    log st.

(** The two requests the loop is written to send. *)
Definition loop_request (r : request) : Prop :=
  match r with
  | Select table column _ => table = USERS_TABLE /\ column = "eid"
  | Insert table _ => table = LOGS_TABLE
  end.

(** A user field of an event: absent, or a non-empty string. *)
Definition absent_or_filled (v : option PyVal) : Prop :=
  match v with
  | None => True
  | Some (VStr s) => s <> ""
  | Some _ => False
  end.

(** The shape of an authentication event. *)
Definition event_shape (ev : LogData) : Prop :=
  (exists eid, ev !! "eid" = Some (VStr eid) /\ strip eid = eid)
  /\ is_Some (ev !! "message")
  /\ absent_or_filled (ev !! "user_id")
  /\ absent_or_filled (ev !! "user_name")
  /\ ((ev !! "event_type" = Some (VStr "login") /\ ev !! "success" = Some (VBool true))
      \/ (ev !! "event_type" = Some (VStr "failed")
          /\ ev !! "success" = Some (VBool false)
          /\ ev !! "user_id" = None /\ ev !! "user_name" = None)).

(** The world [env] with [text] as the payload of the card on the reader. *)
Definition with_text (text : option string) (env : Env) : Env :=
  {| reader_read :=
       match reader_read env with
       | Returns (id, _) => Returns (id, text)
       | Raises e => Raises e
       end;
     clock := clock env;
     execute := execute env;
     sleep := sleep env |}.

End RfidObs.

(** ** Hosts used in the examples *)

Module Hosts.
Import Py Startup.

(** A Raspberry Pi with the libraries installed, on which the reader and
    the client can be created, with the environment [env]. *)
Definition pi_host {C : Type} (client : C) (env : gmap string string) : Host C :=
  {| hardware_libs := true;
     supabase_lib := true;
     environ := env;
     create_client := fun _ _ => Returns client;
     new_reader := Returns tt |}.

(** The same machine with a reader that cannot be created. *)
Definition pi_without_reader {C : Type} (client : C) (env : gmap string string) : Host C :=
  {| hardware_libs := true;
     supabase_lib := true;
     environ := env;
     create_client := fun _ _ => Returns client;
     new_reader := Raises (Exception "SPI device not found") |}.


(** Only the service-role key is set. *)
Definition role_key_only : gmap string string :=
  <["SUPABASE_SERVICE_ROLE_KEY" := "role-key"]>
    (<["SUPABASE_URL" := "https://kiosk.supabase.co"]> ∅).

(** Both variables of the helper are set. *)
Definition full_env : gmap string string :=
  <["SUPABASE_KEY" := "anon-key"]>
    (<["SUPABASE_URL" := "https://kiosk.supabase.co"]> ∅).

End Hosts.

(** * Properties of the scan loop *)

Module RfidFacts.
Import Py Rfid.

(** ** Equations of the functions *)

Ltac run_M :=
  unfold mbind, M_bind, mret, M_ret, bind, ret, raise, try_except, emit,
    remote_call, time_time, time_sleep, get_locals, set_locals in *.

Lemma log_authentication_event_run eid ety ok uid uname msg env st :
  log_authentication_event eid ety ok uid uname msg env st =
  (match execute env (Insert LOGS_TABLE (build_log_data eid ety ok uid uname msg)) with
   | Returns data => Returns (has_rows data)
   | Raises (Exception _) => Returns false
   | Raises KeyboardInterrupt => Raises KeyboardInterrupt
   end,
   st,
   [(st, Remote (Insert LOGS_TABLE (build_log_data eid ety ok uid uname msg)))]).
Proof.
  unfold log_authentication_event. run_M.
  destruct (execute env _) as [data|[|e]]; reflexivity.
Qed.

Lemma scan_and_log_run eid env st :
  scan_and_log eid env st =
  let sel := (st, Remote (Select USERS_TABLE "eid" eid)) in
  let login uid uname := build_log_data eid "login" true uid uname (login_message uname) in
  let failed := build_log_data eid "failed" false None None (failed_message eid) in
  let no_user :=
    (after_insert (execute env (Insert LOGS_TABLE failed)), st,
     [sel; (st, Print (LineNoUser eid)); (st, Remote (Insert LOGS_TABLE failed))]) in
  match execute env (Select USERS_TABLE "eid" eid) with
  | Raises KeyboardInterrupt => (Raises KeyboardInterrupt, st, [sel])
  | Raises (Exception e) => (Returns tt, st, [sel; (st, Print (LineScanFailed e))])
  | Returns (Some (user :: _)) =>
      match user !! "id", user !! "name" with
      | Some uid, Some uname =>
          (after_insert (execute env (Insert LOGS_TABLE (login uid uname))), st,
           [sel; (st, Print (LineScanned uname eid));
            (st, Remote (Insert LOGS_TABLE (login uid uname)))])
      | Some _, None => (Returns tt, st, [sel; (st, Print (LineScanFailed "'name'"))])
      | None, _ => (Returns tt, st, [sel; (st, Print (LineScanFailed "'id'"))])
      end
  | Returns _ => no_user
  end.
Proof.
  unfold scan_and_log, subscript. run_M. cbv zeta.
  destruct (execute env (Select _ _ _)) as [[[|user rest]|]|[|e]]; try reflexivity.
  - rewrite log_authentication_event_run.
    destruct (execute env (Insert _ _)) as [d|[|m]]; reflexivity.
  - destruct (user !! "id") as [uid|]; [|reflexivity].
    destruct (user !! "name") as [uname|]; [|reflexivity].
    rewrite log_authentication_event_run.
    destruct (execute env (Insert _ _)) as [d|[|m]]; reflexivity.
  - rewrite log_authentication_event_run.
    destruct (execute env (Insert _ _)) as [d|[|m]]; reflexivity.
Qed.

Lemma read_rfid_card_run cfg env st :
  read_rfid_card cfg env st = (card_read cfg env, st, []).
Proof.
  unfold card_read, read_rfid_card. run_M.
  destruct (negb (RASPBERRY_PI cfg) || negb (reader cfg)); [reflexivity|].
  destruct (reader_read env) as [[id text]|[|e]]; reflexivity.
Qed.

(** The reader never hands an [Exception] to the loop. *)
Lemma card_read_no_exception cfg env e :
  card_read cfg env <> Raises (Exception e).
Proof.
  unfold card_read, read_rfid_card. run_M.
  destruct (negb (RASPBERRY_PI cfg) || negb (reader cfg)); [discriminate|].
  destruct (reader_read env) as [[id text]|[|m]]; discriminate.
Qed.

(** [scan_and_log] leaves the scan state alone, and all its steps are
    performed under the state it was called with. *)
Lemma scan_and_log_locals eid env st :
  locals_of (scan_and_log eid env st) = st
  /\ Forall (fun s : step => fst s = st) (trace_of (scan_and_log eid env st)).
Proof.
  rewrite scan_and_log_run. cbv zeta.
  destruct (execute env (Select _ _ _)) as [[[|user rest]|]|[|e]];
    try (split; [reflexivity | repeat constructor]).
  destruct (user !! "id") as [uid|], (user !! "name") as [uname|];
    split; try reflexivity; repeat constructor.
Qed.

Lemma scan_and_log_lookups eid env st :
  lookups (trace_of (scan_and_log eid env st)) = [eid].
Proof.
  rewrite scan_and_log_run. cbv zeta.
  destruct (execute env (Select _ _ _)) as [[[|user rest]|]|[|e]]; try reflexivity.
  destruct (user !! "id") as [uid|], (user !! "name") as [uname|]; reflexivity.
Qed.

Lemma scan_and_log_first_step eid env st :
  exists tr, trace_of (scan_and_log eid env st)
             = (st, Remote (Select USERS_TABLE "eid" eid)) :: tr.
Proof.
  rewrite scan_and_log_run. cbv zeta.
  destruct (execute env (Select _ _ _)) as [[[|user rest]|]|[|e]];
    try (eexists; reflexivity).
  destruct (user !! "id") as [uid|], (user !! "name") as [uname|];
    eexists; reflexivity.
Qed.

(** The body of the loop, by cases. *)
Lemma main_iter_run cfg env st :
  main_iter cfg env st =
  match card_read cfg env with
  | Raises e => (Raises e, st, [])
  | Returns None => (sleep env, st, [(st, Sleep (1 # 10))])
  | Returns (Some (card_id, _)) =>
      let eid := strip card_id in
      if in_cooldown st eid (clock env)
      then (sleep env, st, [(st, Sleep (1 # 10))])
      else
        let st' := {| last_scanned_eid := Some eid; last_scan_time := clock env |} in
        match result_of (scan_and_log eid env st) with
        | Returns _ =>
            (sleep env, st', trace_of (scan_and_log eid env st) ++ [(st', Sleep (1 # 2))])
        | Raises e => (Raises e, st, trace_of (scan_and_log eid env st))
        end
  end.
Proof.
  unfold main_iter. run_M. rewrite read_rfid_card_run.
  destruct (card_read cfg env) as [[[card_id card_text]|]|e]; try reflexivity.
  cbv zeta. simpl.
  destruct (in_cooldown st (strip card_id) (clock env)); [reflexivity|].
  pose proof (scan_and_log_locals (strip card_id) env st) as [Hst _].
  destruct (scan_and_log (strip card_id) env st) as [[r st1] tr].
  unfold locals_of, result_of, trace_of in *. simpl in *. subst st1.
  destruct r as [[]|e]; simpl; rewrite ?app_nil_r; reflexivity.
Qed.

Lemma lookups_app tr1 tr2 : lookups (tr1 ++ tr2) = lookups tr1 ++ lookups tr2.
Proof. apply omap_app. Qed.

(** An iteration that does not take the cooldown branch sends exactly the
    card read to the directory. *)
Lemma main_iter_accept cfg env st card_id card_text :
  card_read cfg env = Returns (Some (card_id, card_text)) ->
  in_cooldown st (strip card_id) (clock env) = false ->
  lookups (trace_of (main_iter cfg env st)) = [strip card_id]
  /\ exists tr, trace_of (main_iter cfg env st)
                = trace_of (scan_and_log (strip card_id) env st) ++ tr.
Proof.
  intros Hread Hcool. rewrite main_iter_run, Hread. cbv zeta. rewrite Hcool.
  pose proof (scan_and_log_lookups (strip card_id) env st) as Hl.
  destruct (result_of (scan_and_log (strip card_id) env st)) as [u|e];
    unfold trace_of in *; simpl.
  - split; [rewrite lookups_app, Hl; reflexivity | eexists; reflexivity].
  - split; [exact Hl | exists []; rewrite app_nil_r; reflexivity].
Qed.

Lemma in_cooldown_other st eid t :
  last_scanned_eid st <> Some eid -> in_cooldown st eid t = false.
Proof.
  intros Hne. unfold in_cooldown. rewrite bool_decide_eq_false_2; [reflexivity | exact Hne].
Qed.

Lemma in_cooldown_true st eid t :
  in_cooldown st eid t = true <->
  last_scanned_eid st = Some eid /\ within_cooldown (last_scan_time st) t = true.
Proof.
  unfold in_cooldown, within_cooldown.
  rewrite andb_true_iff, bool_decide_eq_true. reflexivity.
Qed.


(** ** Different cards *)

(** C6: a read whose trimmed identifier differs from the last accepted
    identifier is always accepted, whatever the time elapsed since the last
    acceptance: the iteration sends exactly this identifier to the directory
    and performs the whole of [scan_and_log] on it. *)
Theorem different_card_bypasses_cooldown cfg env st card_id card_text :
  card_read cfg env = Returns (Some (card_id, card_text)) ->
  last_scanned_eid st <> Some (strip card_id) ->
  lookups (trace_of (main_iter cfg env st)) = [strip card_id]
  /\ exists tr, trace_of (main_iter cfg env st)
                = trace_of (scan_and_log (strip card_id) env st) ++ tr.
Proof.
  intros Hread Hne. apply (main_iter_accept _ _ _ _ _ Hread).
  apply in_cooldown_other, Hne.
Qed.

(** Scenario D: "123" was accepted at 10 s, "456" is read an eighth of a
    second later. *)
Lemma different_card_witness :
  let env := card_world 456 10.125 (Returns (Some [])) stored (Returns tt) in
  let st := {| last_scanned_eid := Some "123"; last_scan_time := 10 |} in
  card_read on_pi env = Returns (Some ("456", ""))
  /\ last_scanned_eid st <> Some (strip "456")
  /\ lookups (trace_of (main_iter on_pi env st)) = [strip "456"]
  /\ exists tr, trace_of (main_iter on_pi env st)
                = trace_of (scan_and_log (strip "456") env st) ++ tr.
Proof.
  intros env st.
  split; [reflexivity|]. split; [discriminate|].
  apply (different_card_bypasses_cooldown on_pi env st "456" "");
    [reflexivity | discriminate].
Defined.

(** ** The cooldown *)

Lemma main_iter_cooldown cfg env st card_id card_text :
  card_read cfg env = Returns (Some (card_id, card_text)) ->
  in_cooldown st (strip card_id) (clock env) = true ->
  main_iter cfg env st = (sleep env, st, [(st, Sleep (1 # 10))]).
Proof.
  intros Hread Hcool. rewrite main_iter_run, Hread. cbv zeta.
  rewrite Hcool. reflexivity.
Qed.

(** What one iteration adds to the log of accepted reads, and the state it
    leaves: nothing and the same state, or the card read and the state that
    records it. *)
Lemma main_iter_log cfg env st :
  (lookups (trace_of (main_iter cfg env st)) = []
   /\ locals_of (main_iter cfg env st) = st)
  \/ (exists eid,
        lookups (trace_of (main_iter cfg env st)) = [eid]
        /\ in_cooldown st eid (clock env) = false
        /\ (forall u, result_of (main_iter cfg env st) = Returns u ->
             locals_of (main_iter cfg env st)
             = {| last_scanned_eid := Some eid; last_scan_time := clock env |})).
Proof.
  rewrite main_iter_run.
  destruct (card_read cfg env) as [[[card_id card_text]|]|e];
    try (left; split; reflexivity).
  cbv zeta.
  destruct (in_cooldown st (strip card_id) (clock env)) eqn:Hcool;
    [left; split; reflexivity|].
  right. exists (strip card_id).
  pose proof (scan_and_log_lookups (strip card_id) env st) as Hl.
  destruct (result_of (scan_and_log (strip card_id) env st)) as [u|e];
    unfold trace_of, locals_of, result_of in *; simpl.
  - rewrite lookups_app, Hl. repeat split; (reflexivity || exact Hcool).
  - repeat split; [exact Hl | exact Hcool | discriminate].
Qed.






(** The window is kept for the last accepted card only: "123" at 10 s,
    "456" at 10.125 s and "123" again at 10.25 s are all accepted. *)
Example interleaved_cards_accepted :
  let card uid t := card_world uid t (Returns (Some [])) stored (Returns tt) in
  accepted_log on_pi [card 123%Z 10%float; card 456%Z 10.125%float;
                      card 123%Z 10.25%float]
    initial_locals
  = [("123", 10%float); ("456", 10.125%float); ("123", 10.25%float)].
Proof. reflexivity. Qed.

(** ** Order of the state update and the remote calls *)

Lemma remote_steps_app tr1 tr2 :
  remote_steps (tr1 ++ tr2) = remote_steps tr1 ++ remote_steps tr2.
Proof. apply omap_app. Qed.

Lemma remote_steps_stamp st tr :
  Forall (fun s : step => fst s = st) tr ->
  Forall (fun sr : Locals * request => fst sr = st) (remote_steps tr).
Proof.
  induction 1 as [|[s a] tr Hs _ IH]; [constructor|].
  unfold remote_steps in *. simpl in *.
  destruct a as [l|r|d|]; simpl; try exact IH.
  constructor; [exact Hs | exact IH].
Qed.

(** C1, as the program has it: for every accepted scan the directory lookup
    and the event append are issued while the scan state still holds the
    previous identifier and timestamp; the state takes the new identifier
    and the clock reading of the iteration only once [scan_and_log] has
    returned, before the inter-cycle sleep; when [scan_and_log] is
    interrupted the state is left as it was. *)
Theorem scan_state_updated_after_remote_calls cfg env st card_id card_text :
  card_read cfg env = Returns (Some (card_id, card_text)) ->
  in_cooldown st (strip card_id) (clock env) = false ->
  let eid := strip card_id in
  let st' := {| last_scanned_eid := Some eid; last_scan_time := clock env |} in
  let run := main_iter cfg env st in
  (exists rest,
     remote_steps (trace_of run) = (st, Select USERS_TABLE "eid" eid) :: rest)
  /\ Forall (fun sr : Locals * request => fst sr = st) (remote_steps (trace_of run))
  /\ (result_of (scan_and_log eid env st) = Returns tt ->
      locals_of run = st'
      /\ exists tr, trace_of run = tr ++ [(st', Sleep (1 # 2))])
  /\ (forall e, result_of (scan_and_log eid env st) = Raises e ->
      locals_of run = st).
Proof.
  intros Hread Hcool eid st' run. subst run st' eid.
  rewrite main_iter_run, Hread. cbv zeta. rewrite Hcool.
  destruct (scan_and_log_locals (strip card_id) env st) as [_ Hstamp].
  destruct (scan_and_log_first_step (strip card_id) env st) as [tr0 Hfirst].
  apply remote_steps_stamp in Hstamp.
  destruct (result_of (scan_and_log (strip card_id) env st)) as [[]|e];
    unfold trace_of, locals_of in *; simpl.
  - rewrite remote_steps_app. simpl. rewrite app_nil_r.
    rewrite Hfirst in *. simpl in *.
    split; [eexists; reflexivity|]. split; [exact Hstamp|].
    split; [|intros e He; discriminate He].
    intros _. split; [reflexivity|].
    exists ((st, Remote (Select USERS_TABLE "eid" (strip card_id))) :: tr0).
    reflexivity.
  - rewrite Hfirst in *. simpl in *.
    split; [eexists; reflexivity|]. split; [exact Hstamp|].
    split; [intros He; discriminate He | reflexivity].
Qed.

Lemma scan_state_updated_after_remote_calls_witness :
  let env := card_world 123 10 (Returns (Some [alice])) stored (Returns tt) in
  let st := initial_locals in
  let st' := {| last_scanned_eid := Some "123"; last_scan_time := 10 |} in
  let run := main_iter on_pi env st in
  card_read on_pi env = Returns (Some ("123", ""))
  /\ in_cooldown st (strip "123") (clock env) = false
  /\ (exists rest,
        remote_steps (trace_of run) = (st, Select USERS_TABLE "eid" "123") :: rest)
  /\ Forall (fun sr : Locals * request => fst sr = st) (remote_steps (trace_of run))
  /\ (result_of (scan_and_log "123" env st) = Returns tt ->
      locals_of run = st'
      /\ exists tr, trace_of run = tr ++ [(st', Sleep (1 # 2))])
  /\ (forall e, result_of (scan_and_log "123" env st) = Raises e ->
      locals_of run = st).
Proof.
  intros env st st' run.
  split; [reflexivity|]. split; [reflexivity|].
  apply (scan_state_updated_after_remote_calls on_pi env st "123" "");
    reflexivity.
Defined.

(** Against C1 as stated: "123" is read at 10 s in the initial state. Both
    remote calls of the iteration are issued under the initial scan state;
    the state that records "123" and 10 s is in place only afterwards. *)
Lemma remote_calls_precede_state_update :
  let env := card_world 123 10 (Returns (Some [alice])) stored (Returns tt) in
  let run := main_iter on_pi env initial_locals in
  remote_steps (trace_of run)
  = [(initial_locals, Select USERS_TABLE "eid" "123");
     (initial_locals,
      Insert LOGS_TABLE
        (build_log_data "123" "login" true (Some "u1") (Some "Alice")
           (login_message (Some "Alice"))))]
  /\ locals_of run = {| last_scanned_eid := Some "123"; last_scan_time := 10 |}
  /\ locals_of run <> initial_locals.
Proof.
  intros env run. split; [reflexivity|]. split; [reflexivity|]. discriminate.
Qed.

(** ** The event of a scan *)

Lemma build_log_data_fixed eid ety ok uid uname msg :
  let ev := build_log_data eid ety ok uid uname msg in
  ev !! "eid" = Some (VStr eid)
  /\ ev !! "event_type" = Some (VStr ety)
  /\ ev !! "success" = Some (VBool ok)
  /\ ev !! "message" = Some (of_optional msg).
Proof.
  unfold build_log_data.
  destruct (opt_truthy uid), (opt_truthy uname); repeat split; reflexivity.
Qed.

Lemma build_log_data_user eid ety ok uid uname msg :
  let ev := build_log_data eid ety ok uid uname msg in
  ev !! "user_id" = (if opt_truthy uid then Some (of_optional uid) else None)
  /\ ev !! "user_name" = (if opt_truthy uname then Some (of_optional uname) else None).
Proof.
  unfold build_log_data.
  destruct (opt_truthy uid), (opt_truthy uname); split; reflexivity.
Qed.

(** The events appended by one call of [scan_and_log]. *)
Lemma scan_and_log_appended eid env st :
  appended (trace_of (scan_and_log eid env st)) =
  match execute env (Select USERS_TABLE "eid" eid) with
  | Returns (Some (user :: _)) =>
      match user !! "id", user !! "name" with
      | Some uid, Some uname =>
          [build_log_data eid "login" true uid uname (login_message uname)]
      | _, _ => []
      end
  | Returns _ => [build_log_data eid "failed" false None None (failed_message eid)]
  | Raises _ => []
  end.
Proof.
  rewrite scan_and_log_run. cbv zeta.
  destruct (execute env (Select _ _ _)) as [[[|user rest]|]|[|e]]; try reflexivity.
  destruct (user !! "id") as [uid|], (user !! "name") as [uname|]; reflexivity.
Qed.

(** C2, as the program has it: when the directory query returns, the scan
    appends exactly one event, a login when the answer has a row (with its
    [id] and [name] columns) and a failed event when it has none; when the
    query raises, no event is appended at all. *)
Theorem scan_outcome_unless_query_raises eid env st :
  let sel := Select USERS_TABLE "eid" eid in
  let events := appended (trace_of (scan_and_log eid env st)) in
  (forall user rest uid uname,
     execute env sel = Returns (Some (user :: rest)) ->
     user !! "id" = Some uid -> user !! "name" = Some uname ->
     exists ev, events = [ev] /\ ev !! "event_type" = Some (VStr "login"))
  /\ (forall data,
        execute env sel = Returns data -> has_rows data = false ->
        exists ev, events = [ev] /\ ev !! "event_type" = Some (VStr "failed"))
  /\ (forall e, execute env sel = Raises e -> events = []).
Proof.
  intros sel events. subst sel events. rewrite scan_and_log_appended.
  split; [|split].
  - intros user rest uid uname -> -> ->. eexists. split; [reflexivity|].
    apply build_log_data_fixed.
  - intros data -> Hrows. destruct data as [[|user rest]|]; try discriminate Hrows;
      (eexists; split; [reflexivity | apply build_log_data_fixed]).
  - intros e ->. reflexivity.
Qed.

Lemma scan_outcome_unless_query_raises_witness :
  let found := card_world 123 10 (Returns (Some [alice])) stored (Returns tt) in
  let unknown := card_world 999 10 (Returns (Some [])) stored (Returns tt) in
  let down := card_world 123 10 (Raises (Exception "timed out")) stored (Returns tt) in
  (execute found (Select USERS_TABLE "eid" "123") = Returns (Some [alice])
   /\ alice !! "id" = Some (Some "u1") /\ alice !! "name" = Some (Some "Alice")
   /\ exists ev, appended (trace_of (scan_and_log "123" found initial_locals)) = [ev]
                 /\ ev !! "event_type" = Some (VStr "login"))
  /\ (execute unknown (Select USERS_TABLE "eid" "999") = Returns (Some [])
      /\ has_rows (Some ([] : list Row)) = false
      /\ exists ev, appended (trace_of (scan_and_log "999" unknown initial_locals)) = [ev]
                    /\ ev !! "event_type" = Some (VStr "failed"))
  /\ (execute down (Select USERS_TABLE "eid" "123") = Raises (Exception "timed out")
      /\ appended (trace_of (scan_and_log "123" down initial_locals)) = []).
Proof.
  intros found unknown down. split; [|split].
  - split; [reflexivity|]. split; [reflexivity|]. split; [reflexivity|].
    apply (proj1 (scan_outcome_unless_query_raises "123" found initial_locals)
             alice [] (Some "u1") (Some "Alice")); reflexivity.
  - split; [reflexivity|]. split; [reflexivity|].
    apply (proj1 (proj2 (scan_outcome_unless_query_raises "999" unknown initial_locals))
             (Some [])); reflexivity.
  - split; [reflexivity|].
    apply (proj2 (proj2 (scan_outcome_unless_query_raises "123" down initial_locals))
             (Exception "timed out")); reflexivity.
Defined.

(** Against C2 as stated: the directory query raises; the scan prints its
    failure line and appends neither a login nor a failed event. *)
Lemma query_exception_appends_nothing :
  let down := card_world 123 10 (Raises (Exception "timed out")) stored (Returns tt) in
  scan_and_log "123" down initial_locals
  = (Returns tt, initial_locals,
     [(initial_locals, Remote (Select USERS_TABLE "eid" "123"));
      (initial_locals, Print (LineScanFailed "timed out"))])
  /\ appended (trace_of (scan_and_log "123" down initial_locals)) = [].
Proof. split; reflexivity. Qed.

(** C5, as the program has it: when the lookup returns a row (with its [id]
    and [name] columns) the event is a login with success true, and it
    carries the row's id and name each exactly when it is truthy (a null or
    empty one is left out of the event); when no row is returned the event
    is failed with success false, has neither user id nor user name, and its
    message ends with the scanned identifier. *)
Theorem scan_event_contents eid env st :
  let sel := Select USERS_TABLE "eid" eid in
  let events := appended (trace_of (scan_and_log eid env st)) in
  (forall user rest uid uname,
     execute env sel = Returns (Some (user :: rest)) ->
     user !! "id" = Some uid -> user !! "name" = Some uname ->
     exists ev,
       events = [ev]
       /\ ev !! "eid" = Some (VStr eid)
       /\ ev !! "event_type" = Some (VStr "login")
       /\ ev !! "success" = Some (VBool true)
       /\ ev !! "user_id" = (if opt_truthy uid then Some (of_optional uid) else None)
       /\ ev !! "user_name"
          = (if opt_truthy uname then Some (of_optional uname) else None))
  /\ (forall data,
        execute env sel = Returns data -> has_rows data = false ->
        exists ev,
          events = [ev]
          /\ ev !! "eid" = Some (VStr eid)
          /\ ev !! "event_type" = Some (VStr "failed")
          /\ ev !! "success" = Some (VBool false)
          /\ ev !! "user_id" = None
          /\ ev !! "user_name" = None
          /\ exists prefix, ev !! "message" = Some (VStr (prefix +:+ eid))).
Proof.
  intros sel events. subst sel events. rewrite scan_and_log_appended. split.
  - intros user rest uid uname -> -> ->. eexists. split; [reflexivity|].
    pose proof (build_log_data_fixed eid "login" true uid uname (login_message uname))
      as (He & Ht & Hs & _).
    pose proof (build_log_data_user eid "login" true uid uname (login_message uname))
      as (Hi & Hn).
    repeat split; assumption.
  - intros data -> Hrows.
    pose proof (build_log_data_fixed eid "failed" false None None (failed_message eid))
      as (He & Ht & Hs & Hm).
    pose proof (build_log_data_user eid "failed" false None None (failed_message eid))
      as (Hi & Hn).
    destruct data as [[|user rest]|]; try discriminate Hrows;
      (eexists; split; [reflexivity|]; repeat split; try assumption;
       eexists; exact Hm).
Qed.

Lemma scan_event_contents_witness :
  let found := card_world 123 10 (Returns (Some [alice])) stored (Returns tt) in
  let unknown := card_world 999 10 (Returns (Some [])) stored (Returns tt) in
  (execute found (Select USERS_TABLE "eid" "123") = Returns (Some [alice])
   /\ alice !! "id" = Some (Some "u1") /\ alice !! "name" = Some (Some "Alice")
   /\ exists ev,
        appended (trace_of (scan_and_log "123" found initial_locals)) = [ev]
        /\ ev !! "eid" = Some (VStr "123")
        /\ ev !! "event_type" = Some (VStr "login")
        /\ ev !! "success" = Some (VBool true)
        /\ ev !! "user_id" = Some (VStr "u1")
        /\ ev !! "user_name" = Some (VStr "Alice"))
  /\ (execute unknown (Select USERS_TABLE "eid" "999") = Returns (Some [])
      /\ has_rows (Some ([] : list Row)) = false
      /\ exists ev,
           appended (trace_of (scan_and_log "999" unknown initial_locals)) = [ev]
           /\ ev !! "eid" = Some (VStr "999")
           /\ ev !! "event_type" = Some (VStr "failed")
           /\ ev !! "success" = Some (VBool false)
           /\ ev !! "user_id" = None
           /\ ev !! "user_name" = None
           /\ exists prefix, ev !! "message" = Some (VStr (prefix +:+ "999"))).
Proof.
  intros found unknown. split.
  - split; [reflexivity|]. split; [reflexivity|]. split; [reflexivity|].
    apply (proj1 (scan_event_contents "123" found initial_locals)
             alice [] (Some "u1") (Some "Alice")); reflexivity.
  - split; [reflexivity|]. split; [reflexivity|].
    apply (proj2 (scan_event_contents "999" unknown initial_locals) (Some []));
      reflexivity.
Defined.

(** Against C5 as stated: the lookup returns a row whose name is the empty
    string; the login event has no user name. *)
Lemma empty_name_left_out_of_event :
  let found := card_world 123 10 (Returns (Some [nameless])) stored (Returns tt) in
  nameless !! "id" = Some (Some "u1")
  /\ nameless !! "name" = Some (Some "")
  /\ exists ev,
       appended (trace_of (scan_and_log "123" found initial_locals)) = [ev]
       /\ ev !! "event_type" = Some (VStr "login")
       /\ ev !! "user_id" = Some (VStr "u1")
       /\ ev !! "user_name" = None.
Proof.
  intros found. split; [reflexivity|]. split; [reflexivity|].
  eexists. repeat split; reflexivity.
Qed.

(** ** Failures of the audit log *)

Lemma after_insert_failed o : failed_append o -> after_insert o = Returns tt.
Proof. destruct o as [data|[|e]]; simpl; [reflexivity | contradiction | reflexivity]. Qed.

Lemma card_read_with_insert cfg o env :
  card_read cfg (with_insert o env) = card_read cfg env.
Proof.
  unfold card_read, read_rfid_card. run_M.
  destruct (negb (RASPBERRY_PI cfg) || negb (reader cfg)); reflexivity.
Qed.

Lemma scan_and_log_with_insert eid env st o data :
  failed_append o ->
  scan_and_log eid (with_insert o env) st
  = scan_and_log eid (with_insert (Returns data) env) st.
Proof.
  intros Hfail. rewrite !scan_and_log_run. cbv zeta. simpl.
  rewrite (after_insert_failed o Hfail). reflexivity.
Qed.

(** C7: the event append never raises to its caller on a failure of the
    insert. When the insert raises an [Exception] or returns no row,
    [log_authentication_event] returns false after that single request;
    whatever the insert does short of an interrupt, it returns a boolean.
    Its callers ignore the result: [scan_and_log], and with it the whole
    iteration of the loop (result, scan state, requests and sleeps), is the
    same after a failed insert as after an insert that returns. *)
Theorem append_failure_swallowed :
  (forall eid ety ok uid uname msg env st,
     let ins := Insert LOGS_TABLE (build_log_data eid ety ok uid uname msg) in
     (failed_append (execute env ins) ->
      log_authentication_event eid ety ok uid uname msg env st
      = (Returns false, st, [(st, Remote ins)]))
     /\ (execute env ins <> Raises KeyboardInterrupt ->
         exists b, result_of (log_authentication_event eid ety ok uid uname msg env st)
                   = Returns b))
  /\ (forall eid env st o data,
        failed_append o ->
        scan_and_log eid (with_insert o env) st
        = scan_and_log eid (with_insert (Returns data) env) st)
  /\ (forall cfg env st o data,
        failed_append o ->
        main_iter cfg (with_insert o env) st
        = main_iter cfg (with_insert (Returns data) env) st).
Proof.
  split; [|split].
  - intros eid ety ok uid uname msg env st ins. subst ins.
    rewrite log_authentication_event_run. split.
    + destruct (execute env _) as [data|[|e]]; simpl; intros Hfail.
      * rewrite Hfail. reflexivity.
      * contradiction.
      * reflexivity.
    + destruct (execute env _) as [data|[|e]]; intros Hne.
      * eexists; reflexivity.
      * congruence.
      * eexists; reflexivity.
  - intros eid env st o data. apply scan_and_log_with_insert.
  - intros cfg env st o data Hfail. rewrite !main_iter_run.
    rewrite !card_read_with_insert.
    destruct (card_read cfg env) as [[[card_id card_text]|]|e]; try reflexivity.
    cbv zeta. simpl.
    rewrite (scan_and_log_with_insert (strip card_id) env st o data Hfail).
    reflexivity.
Qed.

(** A known card is read while the audit log is unreachable. *)
Lemma append_failure_swallowed_witness :
  let o : outcome (option (list Row)) := Raises (Exception "log unreachable") in
  let env := card_world 123 10 (Returns (Some [alice])) o (Returns tt) in
  let ev := build_log_data "123" "login" true (Some "u1") (Some "Alice")
              (login_message (Some "Alice")) in
  failed_append (execute env (Insert LOGS_TABLE ev))
  /\ log_authentication_event "123" "login" true (Some "u1") (Some "Alice")
       (login_message (Some "Alice")) env initial_locals
     = (Returns false, initial_locals, [(initial_locals, Remote (Insert LOGS_TABLE ev))])
  /\ failed_append o
  /\ scan_and_log "123" (with_insert o env) initial_locals
     = scan_and_log "123" (with_insert stored env) initial_locals
  /\ main_iter on_pi (with_insert o env) initial_locals
     = main_iter on_pi (with_insert stored env) initial_locals.
Proof.
  intros o env ev.
  split; [exact I|].
  split; [apply (proj1 (proj1 append_failure_swallowed "123" "login" true (Some "u1")
                          (Some "Alice") (login_message (Some "Alice")) env
                          initial_locals)); exact I|].
  split; [exact I|].
  split.
  - apply (proj1 (proj2 append_failure_swallowed) "123" env initial_locals o (Some [∅])).
    exact I.
  - apply (proj2 (proj2 append_failure_swallowed) on_pi env initial_locals o (Some [∅])).
    exact I.
Defined.

(** ** Faults and the end of the loop *)

Lemma scan_and_log_result eid env st :
  result_of (scan_and_log eid env st) = Returns tt
  \/ result_of (scan_and_log eid env st) = Raises KeyboardInterrupt.
Proof.
  rewrite scan_and_log_run. cbv zeta.
  destruct (execute env (Select _ _ _)) as [[[|user rest]|]|[|e]];
    try (left; reflexivity); try (right; reflexivity).
  - destruct (execute env (Insert _ _)) as [d|[|m]]; simpl; auto.
  - destruct (user !! "id") as [uid|], (user !! "name") as [uname|]; auto.
    destruct (execute env (Insert _ _)) as [d|[|m]]; simpl; auto.
  - destruct (execute env (Insert _ _)) as [d|[|m]]; simpl; auto.
Qed.

Lemma scan_and_log_returns eid env st :
  (forall r, execute env r <> Raises KeyboardInterrupt) ->
  result_of (scan_and_log eid env st) = Returns tt.
Proof.
  intros Hno. rewrite scan_and_log_run. cbv zeta.
  assert (forall r, after_insert (execute env r) = Returns tt) as Hins.
  { intros r. specialize (Hno r). destruct (execute env r) as [d|[|m]];
      [reflexivity | congruence | reflexivity]. }
  pose proof (Hno (Select USERS_TABLE "eid" eid)) as Hsel.
  destruct (execute env (Select _ _ _)) as [[[|user rest]|]|[|e]];
    try reflexivity; try congruence; unfold result_of; simpl; try apply Hins.
  destruct (user !! "id") as [uid|], (user !! "name") as [uname|];
    simpl; try reflexivity. apply Hins.
Qed.

Lemma card_read_returns cfg env :
  reader_read env <> Raises KeyboardInterrupt ->
  exists v, card_read cfg env = Returns v.
Proof.
  intros Hno. unfold card_read, read_rfid_card. run_M.
  destruct (negb (RASPBERRY_PI cfg) || negb (reader cfg)); [eexists; reflexivity|].
  destruct (reader_read env) as [[id text]|[|m]];
    [eexists; reflexivity | congruence | eexists; reflexivity].
Qed.

Lemma while_true_app cfg ticks1 ticks2 st :
  while_true cfg (ticks1 ++ ticks2) st =
  match while_true cfg ticks1 st with
  | (Returns _, st1, tr1) =>
      match while_true cfg ticks2 st1 with
      | (r, st2, tr2) => (r, st2, tr1 ++ tr2)
      end
  | (Raises e, st1, tr1) => (Raises e, st1, tr1)
  end.
Proof.
  revert st. induction ticks1 as [|env rest IH]; intros st; simpl.
  - destruct (while_true cfg ticks2 st) as [[r st2] tr2]. reflexivity.
  - destruct (main_iter cfg env st) as [[[u|e] st1] tr1]; [|reflexivity].
    rewrite IH.
    destruct (while_true cfg rest st1) as [[[v|e] st2] tr2]; [|reflexivity].
    destruct (while_true cfg ticks2 st2) as [[r st3] tr3].
    rewrite app_assoc. reflexivity.
Qed.

(** An iteration that raises is the last one. *)
Lemma while_true_raises cfg env rest st e :
  result_of (main_iter cfg env st) = Raises e ->
  while_true cfg (env :: rest) st = main_iter cfg env st.
Proof.
  simpl. destruct (main_iter cfg env st) as [[[u|e'] st1] tr1];
    unfold result_of; simpl; [discriminate | reflexivity].
Qed.

(** C4, as the program has it: a fault raised by the reader or by a remote
    call is caught inside [read_rfid_card] or [scan_and_log], so the
    iteration ends as its sleep ends and, when it returns, the loop goes on
    with the next iteration; an exception that leaves an iteration (an
    interrupt, or a fault of the sleep) ends the loop for good: no later
    iteration runs; on every exit the handler around the loop prints its
    line and the [finally] block (the GPIO cleanup when the hardware is
    present) comes last. *)
Theorem escaping_exception_ends_loop cfg :
  (forall env st,
     reader_read env <> Raises KeyboardInterrupt ->
     (forall r, execute env r <> Raises KeyboardInterrupt) ->
     result_of (main_iter cfg env st) = sleep env)
  /\ (forall env rest st,
        result_of (main_iter cfg env st) = Returns tt ->
        trace_of (while_true cfg (env :: rest) st)
        = trace_of (main_iter cfg env st)
          ++ trace_of (while_true cfg rest (locals_of (main_iter cfg env st))))
  /\ (forall ticks env rest e,
        let before := while_true cfg ticks initial_locals in
        let last := main_iter cfg env (locals_of before) in
        result_of before = Returns tt ->
        result_of last = Raises e ->
        main cfg (ticks ++ env :: rest)
        = (Exited, locals_of last,
           [(initial_locals, Print LineBanner)] ++ trace_of before ++ trace_of last
           ++ [(locals_of last, Print (handler_line e))]
           ++ finally cfg (locals_of last)))
  /\ (forall ticks st tr,
        main cfg ticks = (Exited, st, tr) ->
        exists tr' e, tr = tr' ++ [(st, Print (handler_line e))] ++ finally cfg st).
Proof.
  split; [|split; [|split]].
  - intros env st Hreader Hexec. rewrite main_iter_run.
    destruct (card_read_returns cfg env Hreader) as [[[card_id card_text]|] ->];
      [|reflexivity].
    cbv zeta. destruct (in_cooldown _ _ _); [reflexivity|].
    rewrite (scan_and_log_returns _ _ _ Hexec). reflexivity.
  - intros env rest st Hret. simpl.
    destruct (main_iter cfg env st) as [[[u|e] st1] tr1];
      unfold result_of, locals_of, trace_of in *; simpl in *; [|discriminate].
    destruct (while_true cfg rest st1) as [[r st2] tr2]. reflexivity.
  - intros ticks env rest e before last Hret Hraise. subst before last.
    unfold main. rewrite while_true_app.
    destruct (while_true cfg ticks initial_locals) as [[[u|e0] st1] tr1];
      [|discriminate Hret].
    change (locals_of (Returns u, st1, tr1)) with st1 in *.
    rewrite (while_true_raises cfg env rest st1 e Hraise).
    destruct (main_iter cfg env st1) as [[[v|e1] st2] tr2];
      [discriminate Hraise|].
    injection Hraise as ->. unfold locals_of, trace_of. simpl.
    rewrite <- !app_assoc. reflexivity.
  - intros ticks st tr. unfold main.
    destruct (while_true cfg ticks initial_locals) as [[[u|e] st1] tr1];
      intros Hmain; [discriminate|].
    injection Hmain as <- <-.
    exists ((initial_locals, Print LineBanner) :: tr1), e. reflexivity.
Qed.

(** The reader and the directory both fail, the loop goes on; then a sleep
    is interrupted and the loop ends. *)
Lemma escaping_exception_ends_loop_witness :
  let faulty :=
    {| reader_read := Raises (Exception "link error"); clock := 1%float;
       execute := fun _ => Raises (Exception "timed out"); sleep := Returns tt |} in
  let last := idle_world 2 (Raises KeyboardInterrupt) in
  let card := card_world 123 3 (Returns (Some [alice])) stored (Returns tt) in
  (reader_read faulty <> Raises KeyboardInterrupt
   /\ (forall r, execute faulty r <> Raises KeyboardInterrupt)
   /\ result_of (main_iter on_pi faulty initial_locals) = sleep faulty)
  /\ (result_of (main_iter on_pi faulty initial_locals) = Returns tt
      /\ trace_of (while_true on_pi [faulty; last] initial_locals)
         = trace_of (main_iter on_pi faulty initial_locals)
           ++ trace_of (while_true on_pi [last]
                          (locals_of (main_iter on_pi faulty initial_locals))))
  /\ (result_of (while_true on_pi [faulty] initial_locals) = Returns tt
      /\ result_of (main_iter on_pi last
                      (locals_of (while_true on_pi [faulty] initial_locals)))
         = Raises KeyboardInterrupt
      /\ main on_pi ([faulty] ++ last :: [card])
         = (Exited, initial_locals,
            [(initial_locals, Print LineBanner); (initial_locals, Sleep (1 # 10));
             (initial_locals, Sleep (1 # 10)); (initial_locals, Print LineShutdown);
             (initial_locals, GpioCleanup)]))
  /\ (main on_pi [last]
      = (Exited, initial_locals,
         [(initial_locals, Print LineBanner); (initial_locals, Sleep (1 # 10));
          (initial_locals, Print LineShutdown); (initial_locals, GpioCleanup)])
      /\ exists tr' e,
           [(initial_locals, Print LineBanner); (initial_locals, Sleep (1 # 10));
            (initial_locals, Print LineShutdown); (initial_locals, GpioCleanup)]
           = tr' ++ [(initial_locals, Print (handler_line e))]
             ++ finally on_pi initial_locals).
Proof.
  intros faulty last card.
  pose proof (escaping_exception_ends_loop on_pi) as (H1 & H2 & H3 & H4).
  split; [|split; [|split]].
  - split; [discriminate|]. split; [intros r; discriminate|].
    apply H1; [discriminate | intros r; discriminate].
  - split; [reflexivity|]. apply H2. reflexivity.
  - split; [reflexivity|]. split; [reflexivity|].
    apply (H3 [faulty] last [card] KeyboardInterrupt); reflexivity.
  - split; [reflexivity|]. apply (H4 [last]). reflexivity.
Defined.

(** Against C4 as stated: the sleep of the first iteration raises an
    exception. The handler around the loop prints the error, the cleanup
    runs and [main] is over: the card of the second iteration is never
    looked up. *)
Lemma fault_in_iteration_ends_service :
  let first := idle_world 1 (Raises (Exception "sleep failed")) in
  let second := card_world 123 2 (Returns (Some [alice])) stored (Returns tt) in
  main on_pi [first; second]
  = (Exited, initial_locals,
     [(initial_locals, Print LineBanner);
      (initial_locals, Sleep (1 # 10));
      (initial_locals, Print (LineError "sleep failed"));
      (initial_locals, GpioCleanup)])
  /\ lookups (snd (main on_pi [first; second])) = [].
Proof. split; reflexivity. Qed.

End RfidFacts.

(** * Properties of the directory helper *)

Module SupabaseFacts.
Import Py SupabaseDb.

(** ** [strip] *)

Lemma lstrip_spaces l s : all_space l = true -> lstrip (l +:+ s) = lstrip s.
Proof.
  induction l as [|c l IH]; simpl; [reflexivity|].
  intros [Hc Hl]%andb_true_iff. rewrite Hc. apply IH, Hl.
Qed.

Lemma lstrip_all_space r : all_space r = true -> lstrip r = "".
Proof.
  induction r as [|c r IH]; simpl; [reflexivity|].
  intros [Hc Hr]%andb_true_iff. rewrite Hc. apply IH, Hr.
Qed.

Lemma rstrip_spaces r : all_space r = true -> rstrip r = "".
Proof.
  induction r as [|c r IH]; simpl; [reflexivity|].
  intros [Hc Hr]%andb_true_iff. rewrite (IH Hr), Hc. reflexivity.
Qed.

Lemma rstrip_app_spaces s r : all_space r = true -> rstrip (s +:+ r) = rstrip s.
Proof.
  intros Hr. induction s as [|c s IH]; simpl.
  - apply rstrip_spaces, Hr.
  - rewrite IH. reflexivity.
Qed.

Lemma lstrip_length s : String.length (lstrip s) <= String.length s.
Proof.
  induction s as [|c s IH]; simpl; [lia|].
  destruct (py_isspace c); simpl; lia.
Qed.

Lemma rstrip_length s : String.length (rstrip s) <= String.length s.
Proof.
  induction s as [|c s IH]; simpl; [lia|].
  destruct (rstrip s); [destruct (py_isspace c)|]; simpl in *; lia.
Qed.

Lemma lstrip_fixed s : String.length (lstrip s) = String.length s -> lstrip s = s.
Proof.
  destruct s as [|c s]; simpl; [reflexivity|].
  destruct (py_isspace c); [|reflexivity].
  pose proof (lstrip_length s). lia.
Qed.

Lemma rstrip_fixed s : String.length (rstrip s) = String.length s -> rstrip s = s.
Proof.
  induction s as [|c s IH]; simpl; [reflexivity|].
  pose proof (rstrip_length s) as Hlen.
  destruct (rstrip s) as [|d t] eqn:E.
  - destruct (py_isspace c); simpl; [lia|].
    intros Hl. destruct s; [reflexivity | simpl in Hl; lia].
  - simpl in *. intros Hl. rewrite IH; [reflexivity | lia].
Qed.

Lemma strip_fixed s : strip s = s -> lstrip s = s /\ rstrip s = s.
Proof.
  unfold strip. intros Hs.
  pose proof (lstrip_length s) as Hl. pose proof (rstrip_length (lstrip s)) as Hr.
  assert (lstrip s = s) as El by (apply lstrip_fixed; rewrite Hs in Hr; lia).
  split; [exact El|]. rewrite El in Hs. exact Hs.
Qed.

Lemma lstrip_app_fixed s r :
  lstrip s = s -> all_space r = true -> rstrip (lstrip (s +:+ r)) = rstrip s.
Proof.
  intros Hs Hr. destruct s as [|c s].
  - change ("" +:+ r) with r. rewrite (lstrip_all_space r Hr). reflexivity.
  - change (String c s +:+ r) with (String c (s +:+ r)).
    cbn [lstrip] in *. destruct (py_isspace c).
    + pose proof (lstrip_length s) as Hlen. rewrite Hs in Hlen. simpl in Hlen. lia.
    + apply (rstrip_app_spaces (String c s) r Hr).
Qed.

(** [strip] removes the whitespace around a string that has none of its own
    at either end, and nothing else. *)
Lemma strip_surrounding l s r :
  all_space l = true -> all_space r = true -> strip s = s ->
  strip (l +:+ s +:+ r) = s.
Proof.
  intros Hl Hr Hs. destruct (strip_fixed s Hs) as [El Er].
  unfold strip. rewrite (lstrip_spaces l _ Hl).
  rewrite (lstrip_app_fixed s r El Hr). exact Er.
Qed.

(** ** Lookup by card id *)

Lemma eq_filter_exact column value row :
  eq_filter column value row = true <-> row !! column = Some (VStr value).
Proof.
  unfold eq_filter. destruct (row !! column) as [[| | |s|]|]; try (split; discriminate).
  rewrite String.eqb_eq. split; congruence.
Qed.

Lemma hd_error_filter (f : Dict -> bool) rows :
  first_row (Some (List.filter f rows)) = hd_error (List.filter f rows).
Proof. destruct (List.filter f rows); reflexivity. Qed.

(** The lookup of the helper module, by cases: it sends the trimmed
    identifier to the directory (whitespace around an identifier changes
    nothing); against a table it returns the first row whose [eid] column is
    exactly the trimmed identifier, and [None] when no row has it; it also
    returns [None] when the client is missing and when the remote call
    raises. *)
Lemma get_user_by_eid_cases :
  (forall client eid,
     exists tr, snd (get_user_by_eid (Some client) eid)
                = Call (Select USERS_TABLE "eid" (strip eid)) :: tr)
  /\ (forall supabase l s r,
        all_space l = true -> all_space r = true -> strip s = s ->
        get_user_by_eid supabase (l +:+ s +:+ r) = get_user_by_eid supabase s)
  /\ (forall rows eid,
        fst (get_user_by_eid (Some (table_client rows)) eid)
        = Returns (hd_error (List.filter (eq_filter "eid" (strip eid)) rows)))
  /\ (forall rows eid user,
        fst (get_user_by_eid (Some (table_client rows)) eid) = Returns (Some user) ->
        In user rows /\ user !! "eid" = Some (VStr (strip eid)))
  /\ (forall rows eid,
        (forall user, In user rows -> user !! "eid" <> Some (VStr (strip eid))) ->
        fst (get_user_by_eid (Some (table_client rows)) eid) = Returns None)
  /\ (forall eid, fst (get_user_by_eid None eid) = Returns None)
  /\ (forall client eid e,
        client (Select USERS_TABLE "eid" (strip eid)) = Raises (Exception e) ->
        fst (get_user_by_eid (Some client) eid) = Returns None
        /\ fst (get_user_by_eid (Some client) eid)
           = fst (get_user_by_eid (Some (table_client [])) eid)).
Proof.
  repeat apply conj.
  - intros client eid. unfold get_user_by_eid.
    destruct (client _) as [data|[|e]]; eexists; reflexivity.
  - intros supabase l s r Hl Hr Hs. unfold get_user_by_eid.
    rewrite (strip_surrounding l s r Hl Hr Hs), Hs. reflexivity.
  - intros rows eid. unfold get_user_by_eid, table_client.
    cbv beta iota zeta. cbn [fst]. rewrite hd_error_filter. reflexivity.
  - intros rows eid user. unfold get_user_by_eid, table_client.
    cbv beta iota zeta. cbn [fst]. rewrite hd_error_filter. intros [= Hhd].
    assert (In user (List.filter (eq_filter "eid" (strip eid)) rows)) as Hin.
    { destruct (List.filter _ rows) as [|u tl]; [discriminate|].
      injection Hhd as ->. left. reflexivity. }
    apply filter_In in Hin as [Hin Hf]. split; [exact Hin|].
    apply eq_filter_exact, Hf.
  - intros rows eid Hnone. unfold get_user_by_eid, table_client.
    cbv beta iota zeta. cbn [fst]. rewrite hd_error_filter.
    destruct (List.filter _ rows) as [|u tl] eqn:E; [reflexivity|].
    assert (In u (List.filter (eq_filter "eid" (strip eid)) rows)) as Hin
      by (rewrite E; left; reflexivity).
    apply filter_In in Hin as [Hin Hf]. apply eq_filter_exact in Hf.
    destruct (Hnone u Hin Hf).
  - reflexivity.
  - intros client eid e Hfail. unfold get_user_by_eid. rewrite Hfail.
    split; reflexivity.
Qed.

(** C8, as the program has it: there are two lookups by card id. The one
    of the helper module, [get_user_by_eid], sends the trimmed identifier
    (whitespace around an identifier changes nothing); against a table it
    returns the first row whose [eid] column is exactly the trimmed
    identifier, and [None] when no row has it; it also returns [None] when
    the client is missing and when the remote call raises, so that its
    caller gets for an unreachable directory the value it gets for an
    unknown card. The one the scan loop uses, the query at the head of
    [scan_and_log], sends the identifier as it is given (it is [main] that
    trims the identifier read from the card before the call), and it does
    tell the two cases apart: an answer without rows appends one failed
    event, a query that raises appends no event. *)
Theorem lookup_by_card_id :
  ((forall client eid,
        exists tr, snd (get_user_by_eid (Some client) eid)
                   = Call (Select USERS_TABLE "eid" (strip eid)) :: tr)
     /\ (forall supabase l s r,
           all_space l = true -> all_space r = true -> strip s = s ->
           get_user_by_eid supabase (l +:+ s +:+ r) = get_user_by_eid supabase s)
     /\ (forall rows eid,
           fst (get_user_by_eid (Some (table_client rows)) eid)
           = Returns (hd_error (List.filter (eq_filter "eid" (strip eid)) rows)))
     /\ (forall rows eid user,
           fst (get_user_by_eid (Some (table_client rows)) eid) = Returns (Some user) ->
           In user rows /\ user !! "eid" = Some (VStr (strip eid)))
     /\ (forall rows eid,
           (forall user, In user rows -> user !! "eid" <> Some (VStr (strip eid))) ->
           fst (get_user_by_eid (Some (table_client rows)) eid) = Returns None)
     /\ (forall eid, fst (get_user_by_eid None eid) = Returns None)
     /\ (forall client eid e,
           client (Select USERS_TABLE "eid" (strip eid)) = Raises (Exception e) ->
           fst (get_user_by_eid (Some client) eid) = Returns None
           /\ fst (get_user_by_eid (Some client) eid)
              = fst (get_user_by_eid (Some (table_client [])) eid)))
  /\ ((forall eid env st,
         exists tr, Rfid.trace_of (Rfid.scan_and_log eid env st)
                    = (st, Rfid.Remote (Rfid.Select Rfid.USERS_TABLE "eid" eid)) :: tr)
      /\ (forall cfg env st card_id card_text,
            Rfid.card_read cfg env = Returns (Some (card_id, card_text)) ->
            Rfid.in_cooldown st (strip card_id) (Rfid.clock env) = false ->
            Rfid.lookups (Rfid.trace_of (Rfid.main_iter cfg env st)) = [strip card_id])
      /\ (forall eid env st data,
            Rfid.execute env (Rfid.Select Rfid.USERS_TABLE "eid" eid) = Returns data ->
            has_rows data = false ->
            Rfid.appended (Rfid.trace_of (Rfid.scan_and_log eid env st))
            = [Rfid.build_log_data eid "failed" false None None
                 (Rfid.failed_message eid)])
      /\ (forall eid env st e,
            Rfid.execute env (Rfid.Select Rfid.USERS_TABLE "eid" eid) = Raises e ->
            Rfid.appended (Rfid.trace_of (Rfid.scan_and_log eid env st)) = [])).
Proof.
  split; [exact get_user_by_eid_cases|].
  split; [exact RfidFacts.scan_and_log_first_step|].
  split; [|split].
  - intros cfg env st card_id card_text Hread Hcool.
    apply (RfidFacts.main_iter_accept _ _ _ _ _ Hread Hcool).
  - intros eid env st data Hq Hrows. rewrite RfidFacts.scan_and_log_appended, Hq.
    destruct data as [[|user rest]|]; [reflexivity | discriminate Hrows | reflexivity].
  - intros eid env st e Hq. rewrite RfidFacts.scan_and_log_appended, Hq. reflexivity.
Qed.

Lemma lookup_by_card_id_witness :
  let unknown :=
    Rfid.card_world 999 10 (Returns (Some [])) Rfid.stored (Returns tt) in
  let down :=
    Rfid.card_world 123 10 (Raises (Exception "timed out")) Rfid.stored (Returns tt) in
  (all_space "  " = true /\ all_space " " = true /\ strip "123" = "123"
   /\ get_user_by_eid (Some (table_client [alice])) ("  " +:+ "123" +:+ " ")
      = get_user_by_eid (Some (table_client [alice])) "123")
  /\ (fst (get_user_by_eid (Some (table_client [alice])) " 123 ") = Returns (Some alice)
      /\ In alice [alice] /\ alice !! "eid" = Some (VStr (strip " 123 ")))
  /\ ((forall user, In user [alice] -> user !! "eid" <> Some (VStr (strip "999")))
      /\ fst (get_user_by_eid (Some (table_client [alice])) "999") = Returns None)
  /\ (unreachable (Select USERS_TABLE "eid" (strip "123"))
      = Raises (Exception "connection refused")
      /\ fst (get_user_by_eid (Some unreachable) "123") = Returns None
      /\ fst (get_user_by_eid (Some unreachable) "123")
         = fst (get_user_by_eid (Some (table_client [])) "123"))
  /\ (Rfid.card_read Rfid.on_pi unknown = Returns (Some ("999", ""))
      /\ Rfid.in_cooldown Rfid.initial_locals (strip "999") (Rfid.clock unknown) = false
      /\ Rfid.lookups (Rfid.trace_of (Rfid.main_iter Rfid.on_pi unknown Rfid.initial_locals))
         = [strip "999"])
  /\ (Rfid.execute unknown (Rfid.Select Rfid.USERS_TABLE "eid" "999") = Returns (Some [])
      /\ has_rows (Some ([] : list Rfid.Row)) = false
      /\ Rfid.appended (Rfid.trace_of (Rfid.scan_and_log "999" unknown Rfid.initial_locals))
         = [Rfid.build_log_data "999" "failed" false None None
              (Rfid.failed_message "999")])
  /\ (Rfid.execute down (Rfid.Select Rfid.USERS_TABLE "eid" "123")
      = Raises (Exception "timed out")
      /\ Rfid.appended (Rfid.trace_of (Rfid.scan_and_log "123" down Rfid.initial_locals))
         = []).
Proof.
  intros unknown down.
  pose proof lookup_by_card_id
    as ((_ & H2 & _ & H4 & H5 & _ & H7) & _ & S2 & S3 & S4).
  assert (forall user, In user [alice] -> user !! "eid" <> Some (VStr (strip "999")))
    as Hnone by (intros user [<-|[]]; discriminate).
  repeat apply conj.
  - reflexivity.
  - reflexivity.
  - reflexivity.
  - apply H2; reflexivity.
  - reflexivity.
  - apply (H4 [alice] " 123 " alice). reflexivity.
  - apply (H4 [alice] " 123 " alice). reflexivity.
  - exact Hnone.
  - apply (H5 [alice] "999" Hnone).
  - reflexivity.
  - apply (H7 unreachable "123" "connection refused"). reflexivity.
  - apply (H7 unreachable "123" "connection refused"). reflexivity.
  - reflexivity.
  - reflexivity.
  - apply (S2 Rfid.on_pi unknown Rfid.initial_locals "999" ""); reflexivity.
  - reflexivity.
  - reflexivity.
  - apply (S3 "999" unknown Rfid.initial_locals (Some [])); reflexivity.
  - reflexivity.
  - apply (S4 "123" down Rfid.initial_locals (Exception "timed out")). reflexivity.
Defined.

(** Against C8 as worded, for the lookup of the scan loop: the identifier
    is sent with its surrounding whitespace, and an unknown card and an
    unreachable directory are told apart, the first appends a failed event,
    the second appends nothing. *)
Lemma scan_lookup_tells_unreachable_from_unknown :
  let unknown :=
    Rfid.card_world 123 10 (Returns (Some [])) Rfid.stored (Returns tt) in
  let down :=
    Rfid.card_world 123 10 (Raises (Exception "timed out")) Rfid.stored (Returns tt) in
  Rfid.lookups (Rfid.trace_of (Rfid.scan_and_log " 123 " unknown Rfid.initial_locals))
  = [" 123 "]
  /\ strip " 123 " <> " 123 "
  /\ length (Rfid.appended
               (Rfid.trace_of (Rfid.scan_and_log "123" unknown Rfid.initial_locals)))
     = 1%nat
  /\ length (Rfid.appended
               (Rfid.trace_of (Rfid.scan_and_log "123" down Rfid.initial_locals)))
     = 0%nat
  /\ fst (get_user_by_eid (Some (table_client [])) "123")
     = fst (get_user_by_eid (Some unreachable) "123").
Proof.
  intros unknown down.
  split; [reflexivity|]. split; [discriminate|]. repeat split.
Qed.

(** No case folding: a card stored as "AB12" is not found as "ab12". *)
Example lookup_is_case_sensitive :
  let card : Dict := <["eid" := VStr "AB12"]> ∅ in
  fst (get_user_by_eid (Some (table_client [card])) "AB12") = Returns (Some card)
  /\ fst (get_user_by_eid (Some (table_client [card])) "ab12") = Returns None.
Proof. split; reflexivity. Qed.

(** ** Balance updates *)

(** C9, as the program has it: both balance updates write
    [max(0.0, new_balance)]: the value supplied when it is greater than
    zero, and 0.0 otherwise (a negative value, a zero or a NaN). *)
Theorem balance_update_clamps client key new_balance :
  let written := if PrimFloat.ltb 0%float new_balance then new_balance else 0%float in
  written_balances (snd (update_user_balance (Some client) key new_balance))
  = [VFloat written]
  /\ written_balances (snd (update_user_balance_by_id (Some client) key new_balance))
     = [VFloat written].
Proof.
  unfold update_user_balance, update_user_balance_by_id, py_max. cbv zeta.
  split.
  - destruct (client (Update _ _ "eid" _)) as [data|[|e]]; reflexivity.
  - destruct (client (Update _ _ "id" _)) as [data|[|e]]; reflexivity.
Qed.

(** Against C9 as stated: asked to set the balance of card "123" to -5.0,
    both updates write 0.0. *)
Lemma negative_balance_written_as_zero :
  written_balances (snd (update_user_balance (Some (table_client [alice])) "123" (-5)%float))
  = [VFloat 0%float]
  /\ written_balances
       (snd (update_user_balance_by_id (Some (table_client [alice])) "u1" (-5)%float))
     = [VFloat 0%float]
  /\ VFloat 0%float <> VFloat (-5)%float.
Proof.
  split; [reflexivity|]. split; [reflexivity|].
  intros H.
  apply (f_equal (fun v => match v with
                           | VFloat x => PrimFloat.ltb x 0%float
                           | _ => false
                           end)) in H.
  vm_compute in H. discriminate H.
Qed.

(** ** Conversions *)

Section ConversionFacts.
Context `{Builtins}.

(** The API format, as [convert_to_api_format] produces it: six fields, of
    which [id] and [rfidCardId] are strings and [balance] is a float. *)
Lemma convert_to_api_format_shape user api :
  convert_to_api_format user = Returns api ->
  exists id card balance,
    api = <["id" := VStr id]>
          (<["name" := dict_get user "name" (VStr "")]>
          (<["rfidCardId" := VStr card]>
          (<["balance" := VFloat balance]>
          (<["phoneNumber" := dict_get user "contact_number" (VStr "")]>
          (<["createdAt" := dict_get user "created_at" (VStr "")]> ∅))))).
Proof.
  unfold convert_to_api_format.
  destruct (py_float _) as [balance|e]; [|discriminate].
  intros [= <-]. eexists _, _, _. reflexivity.
Qed.

(** C10: converting a record from the API format to the database format
    and back preserves the name, the phone number, the card id as a string
    ([str] of it) and the balance as a float ([float] of it, which must
    exist), and leaves [id] and [createdAt] the empty string. A field that
    is absent reads as its default: the empty string. *)
Theorem api_round_trip (user : Dict) (balance : float) :
  py_float (dict_get user "balance" (VFloat 0%float)) = Returns balance ->
  exists db,
    convert_from_api_format user = Returns db
    /\ convert_to_api_format db
       = Returns
           (<["id" := VStr ""]>
           (<["name" := dict_get user "name" (VStr "")]>
           (<["rfidCardId" := VStr (py_str (dict_get user "rfidCardId" (VStr "")))]>
           (<["balance" := VFloat balance]>
           (<["phoneNumber" := dict_get user "phoneNumber" (VStr "")]>
           (<["createdAt" := VStr ""]> ∅)))))).
Proof.
  intros Hbalance. unfold convert_from_api_format. rewrite Hbalance.
  eexists. split; [reflexivity|].
  unfold convert_to_api_format, dict_get. reflexivity.
Qed.

(** The same for a record as [convert_to_api_format] makes them: the card
    id is a string and the balance a float, and both come back as they are. *)
Lemma api_record_round_trip (user : Dict) (name phone : PyVal) (card : string)
  (balance : float) :
  user !! "name" = Some name ->
  user !! "phoneNumber" = Some phone ->
  user !! "rfidCardId" = Some (VStr card) ->
  user !! "balance" = Some (VFloat balance) ->
  exists db,
    convert_from_api_format user = Returns db
    /\ convert_to_api_format db
       = Returns
           (<["id" := VStr ""]>
           (<["name" := name]>
           (<["rfidCardId" := VStr card]>
           (<["balance" := VFloat balance]>
           (<["phoneNumber" := phone]>
           (<["createdAt" := VStr ""]> ∅)))))).
Proof.
  intros Hname Hphone Hcard Hbalance.
  unfold convert_from_api_format, dict_get.
  rewrite Hname, Hphone, Hcard, Hbalance. simpl.
  eexists. split; [reflexivity|].
  unfold convert_to_api_format, dict_get. reflexivity.
Qed.

End ConversionFacts.

Lemma api_round_trip_witness :
  (forall builtins : Builtins,
     py_float (dict_get api_alice "balance" (VFloat 0%float)) = Returns 50%float)
  /\ (forall builtins : Builtins,
        exists db,
          convert_from_api_format api_alice = Returns db
          /\ convert_to_api_format db
             = Returns
                 (<["id" := VStr ""]>
                 (<["name" := VStr "Alice"]>
                 (<["rfidCardId" := VStr "123"]>
                 (<["balance" := VFloat 50%float]>
                 (<["phoneNumber" := VStr "555-0100"]>
                 (<["createdAt" := VStr ""]> ∅))))))).
Proof.
  split; [reflexivity|].
  intros builtins. apply (api_round_trip api_alice 50%float). reflexivity.
Defined.

End SupabaseFacts.

(** * Further properties *)

(** ** String methods *)

Module PyStrFacts.
Import Py PyStr.

Lemma lower_char_idem c : lower_char (lower_char c) = lower_char c.
Proof. destruct c as [[] [] [] [] [] [] [] []]; reflexivity. Qed.

Lemma isspace_lower_char c : py_isspace (lower_char c) = py_isspace c.
Proof. destruct c as [[] [] [] [] [] [] [] []]; reflexivity. Qed.

Lemma lower_idem s : lower (lower s) = lower s.
Proof.
  induction s as [|c s IH]; simpl; [reflexivity|].
  rewrite lower_char_idem, IH. reflexivity.
Qed.

Lemma split_cons c s :
  split (String c s) =
  if py_isspace c then split s
  else
    match s with
    | EmptyString => [String c EmptyString]
    | String d _ =>
        if py_isspace d then String c EmptyString :: split s
        else
          match split s with
          | w :: ws => String c w :: ws
          | [] => [String c EmptyString]
          end
    end.
Proof. reflexivity. Qed.

Lemma split_lower s : split (lower s) = map lower (split s).
Proof.
  induction s as [|c s IH]; [reflexivity|].
  cbn [lower]. rewrite !split_cons, isspace_lower_char.
  destruct (py_isspace c); [exact IH|].
  destruct s as [|d s']; [reflexivity|].
  rewrite IH. cbn [lower]. rewrite isspace_lower_char.
  destruct (py_isspace d); [reflexivity|].
  destruct (split (String d s')); reflexivity.
Qed.

Lemma startswith_refl s : startswith s s = true.
Proof.
  induction s as [|c s IH]; simpl; [reflexivity|].
  rewrite Ascii.eqb_refl. exact IH.
Qed.

Lemma contains_startswith needle hay :
  startswith hay needle = true -> contains needle hay = true.
Proof. intros H. destruct hay; simpl in *; rewrite H; reflexivity. Qed.

Lemma contains_tail needle c hay :
  contains needle hay = true -> contains needle (String c hay) = true.
Proof. intros H. cbn [contains]. rewrite H. apply orb_true_r. Qed.

(** The empty string occurs in every string. *)
Lemma contains_empty hay : contains "" hay = true.
Proof. destruct hay; reflexivity. Qed.

(** A string that starts with a character that is no whitespace has a
    first word, and starts with it. *)
Lemma split_head_prefix c s :
  py_isspace c = false ->
  exists w ws, split (String c s) = String c w :: ws
               /\ startswith s w = true.
Proof.
  revert c. induction s as [|d s IH]; intros c Hc; rewrite split_cons, Hc.
  - exists "", []. split; reflexivity.
  - destruct (py_isspace d) eqn:Hd.
    + exists "", (split (String d s)). split; reflexivity.
    + destruct (IH d Hd) as (w & ws & Hsplit & Hpre). rewrite Hsplit.
      exists (String d w), ws. split; [reflexivity|].
      simpl. rewrite Ascii.eqb_refl. exact Hpre.
Qed.

(** The first word of a string occurs in it. *)
Lemma first_word_contained s w ws :
  split s = w :: ws -> contains w s = true.
Proof.
  induction s as [|c s IH]; [discriminate|].
  destruct (py_isspace c) eqn:Hc.
  - rewrite split_cons, Hc. intros H. apply contains_tail, IH, H.
  - destruct (split_head_prefix c s Hc) as (w' & ws' & Hsplit & Hpre).
    rewrite Hsplit. intros [= <- <-].
    apply contains_startswith. simpl. rewrite Ascii.eqb_refl. exact Hpre.
Qed.

(** The words of a lower-cased string are in lower case. *)
Lemma split_lower_words s w :
  In w (split (lower s)) -> lower w = w.
Proof.
  rewrite split_lower. intros (w0 & <- & _)%in_map_iff. apply lower_idem.
Qed.

(** [strip] *)

Lemma lstrip_head s :
  lstrip s = "" \/ exists c r, lstrip s = String c r /\ py_isspace c = false.
Proof.
  induction s as [|c s IH]; simpl; [left; reflexivity|].
  destruct (py_isspace c) eqn:Hc; [exact IH|].
  right. exists c, s. split; [reflexivity | exact Hc].
Qed.

Lemma rstrip_idem s : rstrip (rstrip s) = rstrip s.
Proof.
  induction s as [|c s IH]; [reflexivity|].
  cbn [rstrip]. destruct (rstrip s) as [|d r] eqn:E.
  - destruct (py_isspace c) eqn:Hc; [reflexivity|].
    cbn [rstrip]. rewrite Hc. reflexivity.
  - cbn [rstrip]. cbn [rstrip] in IH. rewrite IH. reflexivity.
Qed.

Lemma rstrip_keeps_head c s :
  py_isspace c = false -> exists r, rstrip (String c s) = String c r.
Proof.
  intros Hc. cbn [rstrip]. destruct (rstrip s); [rewrite Hc|]; eexists; reflexivity.
Qed.

(** Trimming twice is trimming once. *)
Lemma strip_idem s : strip (strip s) = strip s.
Proof.
  unfold strip.
  assert (lstrip (rstrip (lstrip s)) = rstrip (lstrip s)) as ->.
  { destruct (lstrip_head s) as [->|(c & r & -> & Hc)]; [reflexivity|].
    destruct (rstrip_keeps_head c r Hc) as [r' ->]. simpl. rewrite Hc. reflexivity. }
  apply rstrip_idem.
Qed.

(** When the query does not occur in a lower-cased name, it is not the
    first word of that name either. *)
Lemma first_word_never_decides q s w ws :
  contains q (lower s) = false ->
  split (lower s) = w :: ws ->
  String.eqb (lower w) q = false.
Proof.
  intros Hc Hs. destruct (String.eqb_spec (lower w) q) as [Heq|Hne]; [|reflexivity].
  assert (lower w = w) as Hw
    by (apply (split_lower_words s); rewrite Hs; left; reflexivity).
  pose proof (first_word_contained _ _ _ Hs) as Hin.
  rewrite <- Heq, Hw, Hin in Hc. discriminate Hc.
Qed.

End PyStrFacts.

(** ** The scan loop over whole runs *)

Module RfidMore.
Import Py Rfid RfidObs RfidFacts PyStrFacts.

(** *** Shapes of the traces *)

Lemma card_read_eq cfg env :
  card_read cfg env =
  if simulation cfg then Returns None
  else
    match reader_read env with
    | Returns (id, text) =>
        Returns (Some (str_uid id,
                       match text with
                       | Some t => if str_truthy t then strip t else ""
                       | None => ""
                       end))
    | Raises (Exception _) => Returns None
    | Raises KeyboardInterrupt => Raises KeyboardInterrupt
    end.
Proof.
  unfold card_read, read_rfid_card, simulation. run_M.
  destruct (negb (RASPBERRY_PI cfg) || negb (reader cfg)); [reflexivity|].
  destruct (reader_read env) as [[id text]|[|e]]; reflexivity.
Qed.

(** The four traces of [scan_and_log]. *)
Lemma scan_and_log_trace eid env st :
  let sel := (st, Remote (Select USERS_TABLE "eid" eid)) in
  trace_of (scan_and_log eid env st) = [sel]
  \/ (exists e, trace_of (scan_and_log eid env st) = [sel; (st, Print (LineScanFailed e))])
  \/ (exists uid uname,
        trace_of (scan_and_log eid env st)
        = [sel; (st, Print (LineScanned uname eid));
           (st, Remote (Insert LOGS_TABLE
                          (build_log_data eid "login" true uid uname
                             (login_message uname))))])
  \/ trace_of (scan_and_log eid env st)
     = [sel; (st, Print (LineNoUser eid));
        (st, Remote (Insert LOGS_TABLE
                       (build_log_data eid "failed" false None None
                          (failed_message eid))))].
Proof.
  rewrite scan_and_log_run. cbv zeta.
  destruct (execute env (Select _ _ _)) as [[[|user rest]|]|[|e]];
    try (left; reflexivity);
    try (right; left; eexists; reflexivity);
    try (right; right; right; reflexivity).
  destruct (user !! "id") as [uid|], (user !! "name") as [uname|];
    try (right; left; eexists; reflexivity).
  right; right; left. eexists _, _. reflexivity.
Qed.

(** The traces of one iteration: nothing (the reader was interrupted), the
    short sleep, or a scan of a trimmed identifier, followed by the long
    sleep unless the scan was interrupted. *)
Lemma main_iter_trace cfg env st :
  trace_of (main_iter cfg env st) = []
  \/ trace_of (main_iter cfg env st) = [(st, Sleep (1 # 10))]
  \/ exists eid,
       strip eid = eid
       /\ (trace_of (main_iter cfg env st)
           = trace_of (scan_and_log eid env st)
             ++ [({| last_scanned_eid := Some eid; last_scan_time := clock env |},
                  Sleep (1 # 2))]
           \/ trace_of (main_iter cfg env st) = trace_of (scan_and_log eid env st)).
Proof.
  rewrite main_iter_run.
  destruct (card_read cfg env) as [[[card_id card_text]|]|e]; auto.
  cbv zeta. destruct (in_cooldown _ _ _); auto.
  right; right. exists (strip card_id). split; [apply strip_idem|].
  destruct (result_of (scan_and_log (strip card_id) env st)); auto.
Qed.

(** A property of traces that holds for the empty trace, for every
    iteration and for concatenations holds for every run of the loop. *)
Lemma while_true_trace_ind cfg (P : list step -> Prop) :
  P [] ->
  (forall tr1 tr2, P tr1 -> P tr2 -> P (tr1 ++ tr2)) ->
  (forall env st, P (trace_of (main_iter cfg env st))) ->
  forall ticks st, P (trace_of (while_true cfg ticks st)).
Proof.
  intros Hnil Happ Hiter ticks. induction ticks as [|env rest IH]; intros st.
  - exact Hnil.
  - simpl. pose proof (Hiter env st) as H1.
    destruct (main_iter cfg env st) as [[[u|e] st1] tr1]; [|exact H1].
    pose proof (IH st1) as H2.
    destruct (while_true cfg rest st1) as [[r st2] tr2].
    apply Happ; assumption.
Qed.

(** The same for [main], whose own steps are prints and the cleanup. *)
Lemma main_trace_ind cfg (P : list step -> Prop) :
  P [] ->
  (forall tr1 tr2, P tr1 -> P tr2 -> P (tr1 ++ tr2)) ->
  (forall env st, P (trace_of (main_iter cfg env st))) ->
  (forall st l, P [(st, Print l)]) ->
  (forall st, P [(st, GpioCleanup)]) ->
  forall ticks, P (snd (main cfg ticks)).
Proof.
  intros Hnil Happ Hiter Hprint Hclean ticks. unfold main.
  pose proof (while_true_trace_ind cfg P Hnil Happ Hiter ticks initial_locals) as H.
  destruct (while_true cfg ticks initial_locals) as [[[u|e] st] tr]; simpl.
  - apply (Happ [_]); [apply Hprint | exact H].
  - apply (Happ [_]); [apply Hprint|].
    apply Happ; [exact H|]. apply (Happ [_]); [apply Hprint|].
    unfold finally. destruct (RASPBERRY_PI cfg); [apply Hclean | exact Hnil].
Qed.

Lemma appended_app tr1 tr2 : appended (tr1 ++ tr2) = appended tr1 ++ appended tr2.
Proof. apply omap_app. Qed.

Lemma sleeps_app tr1 tr2 : sleeps (tr1 ++ tr2) = sleeps tr1 ++ sleeps tr2.
Proof. apply omap_app. Qed.

Lemma build_log_data_shape eid ety ok uid uname msg :
  strip eid = eid ->
  (ety = "login" /\ ok = true) \/ (ety = "failed" /\ ok = false /\ uid = None /\ uname = None) ->
  event_shape (build_log_data eid ety ok uid uname (Some msg)).
Proof.
  intros Heid Hkind.
  pose proof (build_log_data_fixed eid ety ok uid uname (Some msg)) as (He & Ht & Hs & Hm).
  pose proof (build_log_data_user eid ety ok uid uname (Some msg)) as (Hi & Hn).
  cbv zeta in *. unfold event_shape. rewrite He, Ht, Hs, Hm, Hi, Hn.
  split; [exists eid; split; [reflexivity | exact Heid]|].
  split; [eexists; reflexivity|].
  split; [destruct uid as [[|c u]|]; simpl; [exact I | discriminate | exact I]|].
  split; [destruct uname as [[|c u]|]; simpl; [exact I | discriminate | exact I]|].
  destruct Hkind as [[-> ->]|(-> & -> & -> & ->)]; [left | right]; repeat split.
Qed.

(** *** What the loop sends *)

(** Whatever the reader, the directory and the log do, a run of [main]
    only ever sends two kinds of request: a select on the [eid] column of
    the users table, for an identifier without whitespace around it, and an
    insert into the log table. It never writes to the users table. *)
Theorem loop_requests_confined cfg ticks :
  Forall (fun sr : Locals * request => loop_request (snd sr))
    (remote_steps (snd (main cfg ticks)))
  /\ Forall (fun eid => strip eid = eid) (lookups (snd (main cfg ticks))).
Proof.
  apply (main_trace_ind cfg
           (fun tr =>
              Forall (fun sr : Locals * request => loop_request (snd sr)) (remote_steps tr)
              /\ Forall (fun eid => strip eid = eid) (lookups tr))).
  - split; constructor.
  - intros tr1 tr2 [H1 H1'] [H2 H2']. rewrite remote_steps_app, lookups_app.
    split; apply Forall_app; split; assumption.
  - intros env st.
    assert (forall eid, strip eid = eid ->
              Forall (fun sr : Locals * request => loop_request (snd sr))
                (remote_steps (trace_of (scan_and_log eid env st)))
              /\ Forall (fun eid => strip eid = eid)
                   (lookups (trace_of (scan_and_log eid env st)))) as Hscan.
    { intros eid Heid. rewrite scan_and_log_lookups.
      split; [|repeat constructor; exact Heid].
      destruct (scan_and_log_trace eid env st)
        as [->|[[e ->]|[(uid & uname & ->)| ->]]];
        repeat constructor. }
    destruct (main_iter_trace cfg env st) as [->|[->|(eid & Heid & [->| ->])]];
      try (split; constructor).
    + destruct (Hscan eid Heid) as [H1 H2].
      rewrite remote_steps_app, lookups_app. simpl. rewrite !app_nil_r.
      split; assumption.
    + apply Hscan, Heid.
  - intros st l. split; constructor.
  - intros st. split; constructor.
Qed.

(** In a run of [main] every event appended is preceded by the lookup of
    its card, there are never more events than lookups, and never more
    lookups than iterations. *)
Theorem one_lookup_per_iteration cfg ticks :
  let tr := snd (main cfg ticks) in
  (length (appended tr) <= length (lookups tr) <= length ticks)%nat
  /\ Forall (fun ev : LogData =>
               exists eid, ev !! "eid" = Some (VStr eid) /\ In eid (lookups tr))
       (appended tr).
Proof.
  cbv zeta.
  assert (forall env st,
            (length (appended (trace_of (main_iter cfg env st)))
             <= length (lookups (trace_of (main_iter cfg env st))) <= 1)%nat
            /\ Forall (fun ev : LogData =>
                         exists eid, ev !! "eid" = Some (VStr eid)
                                     /\ In eid (lookups (trace_of (main_iter cfg env st))))
                 (appended (trace_of (main_iter cfg env st)))) as Hiter.
  { intros env st.
    assert (forall eid,
              (length (appended (trace_of (scan_and_log eid env st))) <= 1)%nat
              /\ Forall (fun ev : LogData => ev !! "eid" = Some (VStr eid))
                   (appended (trace_of (scan_and_log eid env st)))) as Hscan.
    { intros eid.
      destruct (scan_and_log_trace eid env st)
        as [->|[[e ->]|[(uid & uname & ->)| ->]]]; simpl;
        (split; [lia|]); repeat constructor; apply build_log_data_fixed. }
    destruct (main_iter_trace cfg env st) as [->|[->|(eid & Heid & [->| ->])]];
      try (simpl; split; [lia | constructor]);
      rewrite ?appended_app, ?lookups_app, scan_and_log_lookups; simpl;
      rewrite ?app_nil_r; destruct (Hscan eid) as [Hlen Hev];
      (split; [lia|]);
      (eapply Forall_impl; [exact Hev|]);
      intros ev Hev'; exists eid; (split; [exact Hev' | left; reflexivity]). }
  assert (forall ticks st,
            (length (lookups (trace_of (while_true cfg ticks st))) <= length ticks)%nat)
    as Hbound.
  { clear ticks. induction ticks as [|env rest IH]; intros st; simpl; [lia|].
    destruct (Hiter env st) as [[_ H1] _].
    destruct (main_iter cfg env st) as [[[u|e] st1] tr1];
      unfold trace_of in *; simpl in *; [|lia].
    specialize (IH st1). destruct (while_true cfg rest st1) as [[r st2] tr2].
    simpl in *. rewrite lookups_app, length_app. lia. }
  pose proof (main_trace_ind cfg
    (fun tr =>
       (length (appended tr) <= length (lookups tr))%nat
       /\ Forall (fun ev : LogData =>
                    exists eid, ev !! "eid" = Some (VStr eid) /\ In eid (lookups tr))
            (appended tr))) as Hind.
  assert (lookups (snd (main cfg ticks))
          = lookups (trace_of (while_true cfg ticks initial_locals))) as Hlk.
  { unfold main.
    destruct (while_true cfg ticks initial_locals) as [[[u|e] st] tr];
      unfold trace_of; simpl; [reflexivity|].
    rewrite lookups_app. unfold finally.
    destruct (RASPBERRY_PI cfg); simpl; rewrite app_nil_r; reflexivity. }
  destruct (Hind) with (ticks := ticks) as [Hle Hev].
  - split; [simpl; lia | constructor].
  - intros tr1 tr2 [H1 H1'] [H2 H2'].
    rewrite appended_app, lookups_app, !length_app.
    split; [lia|]. apply Forall_app. split; (eapply Forall_impl; [eassumption|]);
      intros ev (eid & He & Hin); exists eid; (split; [exact He|]);
      apply in_or_app; auto.
  - intros env st. destruct (Hiter env st) as [[H1 _] H2]. split; assumption.
  - intros st l. split; [simpl; lia | constructor].
  - intros st. split; [simpl; lia | constructor].
  - split; [|exact Hev]. split; [exact Hle|]. rewrite Hlk. apply Hbound.
Qed.

(** Every event a run of [main] appends has the shape the log table
    expects: the trimmed card id, a message, a type and a success flag that
    agree (login with true, failed with false), user id and user name
    either absent or a non-empty string, and absent on a failed event. *)
Theorem appended_events_well_formed cfg ticks :
  Forall event_shape (appended (snd (main cfg ticks))).
Proof.
  apply (main_trace_ind cfg (fun tr => Forall event_shape (appended tr))).
  - constructor.
  - intros tr1 tr2 H1 H2. rewrite appended_app. apply Forall_app. split; assumption.
  - intros env st.
    assert (forall eid, strip eid = eid ->
              Forall event_shape (appended (trace_of (scan_and_log eid env st))))
      as Hscan.
    { intros eid Heid.
      destruct (scan_and_log_trace eid env st)
        as [->|[[e ->]|[(uid & uname & ->)| ->]]]; simpl.
      - constructor.
      - constructor.
      - apply Forall_cons_2; [|constructor].
        apply build_log_data_shape; [exact Heid | left; split; reflexivity].
      - apply Forall_cons_2; [|constructor].
        apply build_log_data_shape; [exact Heid | right; repeat split]. }
    destruct (main_iter_trace cfg env st) as [->|[->|(eid & Heid & [->| ->])]];
      try constructor.
    + rewrite appended_app. simpl. rewrite app_nil_r. apply Hscan, Heid.
    + apply Hscan, Heid.
  - intros st l. constructor.
  - intros st. constructor.
Qed.

(** *** Sleeps, state and acceptance *)

Lemma scan_and_log_sleeps eid env st : sleeps (trace_of (scan_and_log eid env st)) = [].
Proof.
  destruct (scan_and_log_trace eid env st)
    as [->|[[e ->]|[(uid & uname & ->)| ->]]]; reflexivity.
Qed.

(** An iteration that completes sleeps exactly once: 0.5 s when it sent a
    card to the directory, 0.1 s when it did not (no card, or a card under
    cooldown). *)
Theorem two_tier_sleep cfg env st :
  result_of (main_iter cfg env st) = Returns tt ->
  sleeps (trace_of (main_iter cfg env st))
  = [match lookups (trace_of (main_iter cfg env st)) with
     | [] => (1 # 10)%Q
     | _ => (1 # 2)%Q
     end].
Proof.
  rewrite main_iter_run.
  destruct (card_read cfg env) as [[[card_id card_text]|]|e];
    [|reflexivity|discriminate].
  cbv zeta. destruct (in_cooldown _ _ _); [reflexivity|].
  pose proof (scan_and_log_lookups (strip card_id) env st) as Hl.
  pose proof (scan_and_log_sleeps (strip card_id) env st) as Hs.
  destruct (result_of (scan_and_log (strip card_id) env st)); [|discriminate].
  intros _. unfold trace_of in *. simpl.
  rewrite sleeps_app, lookups_app, Hl, Hs. reflexivity.
Qed.

Lemma two_tier_sleep_witness :
  let card := card_world 123 10 (Returns (Some [alice])) stored (Returns tt) in
  let idle := idle_world 10 (Returns tt) in
  (result_of (main_iter on_pi card initial_locals) = Returns tt
   /\ sleeps (trace_of (main_iter on_pi card initial_locals)) = [(1 # 2)%Q])
  /\ (result_of (main_iter on_pi idle initial_locals) = Returns tt
      /\ sleeps (trace_of (main_iter on_pi idle initial_locals)) = [(1 # 10)%Q]).
Proof.
  intros card idle. split; (split; [reflexivity|]).
  - apply (two_tier_sleep on_pi card initial_locals). reflexivity.
  - apply (two_tier_sleep on_pi idle initial_locals). reflexivity.
Defined.

(** As long as the loop runs, the scan state is the last read it sent to
    the directory, with the clock reading of that iteration (and the state
    it started with when it sent none). *)
Theorem state_holds_last_accepted cfg ticks st :
  result_of (while_true cfg ticks st) = Returns tt ->
  locals_of (while_true cfg ticks st) = last_accepted st (accepted_log cfg ticks st).
Proof.
  revert st. induction ticks as [|env rest IH]; intros st; [reflexivity|].
  simpl.
  destruct (main_iter_log cfg env st) as [[Hl Hst]|(eid & Hl & _ & Hst)];
    destruct (main_iter cfg env st) as [[[u|e] st1] tr1];
    unfold trace_of, locals_of, result_of in *; simpl in *;
    try discriminate; rewrite Hl; simpl.
  - subst st1. specialize (IH st).
    destruct (while_true cfg rest st) as [[r st2] tr2]. exact IH.
  - rewrite (Hst u eq_refl) in *.
    specialize (IH {| last_scanned_eid := Some eid; last_scan_time := clock env |}).
    destruct (while_true cfg rest _) as [[r st2] tr2]. exact IH.
Qed.

Lemma state_holds_last_accepted_witness :
  let card uid t := card_world uid t (Returns (Some [])) stored (Returns tt) in
  let ticks := [card 123%Z 10%float; idle_world 11 (Returns tt);
                card 456%Z 12%float; card 456%Z 13%float] in
  result_of (while_true on_pi ticks initial_locals) = Returns tt
  /\ accepted_log on_pi ticks initial_locals = [("123", 10%float); ("456", 12%float)]
  /\ locals_of (while_true on_pi ticks initial_locals)
     = {| last_scanned_eid := Some "456"; last_scan_time := 12 |}.
Proof.
  intros card ticks. split; [reflexivity|]. split; [reflexivity|].
  apply (state_holds_last_accepted on_pi ticks initial_locals). reflexivity.
Defined.

(** Once the cooldown has run out, that is once the computed difference
    [current_time - last_scan_time] is no longer below [scan_cooldown], the
    card accepted last is accepted again: it is sent to the directory, and
    when the iteration completes the window restarts at the clock reading
    of this read. *)
Theorem card_accepted_again_after_cooldown cfg env st card_id card_text :
  card_read cfg env = Returns (Some (card_id, card_text)) ->
  last_scanned_eid st = Some (strip card_id) ->
  PrimFloat.ltb (PrimFloat.sub (clock env) (last_scan_time st)) scan_cooldown
  = false ->
  lookups (trace_of (main_iter cfg env st)) = [strip card_id]
  /\ (result_of (main_iter cfg env st) = Returns tt ->
      locals_of (main_iter cfg env st)
      = {| last_scanned_eid := Some (strip card_id); last_scan_time := clock env |}).
Proof.
  intros Hread Hlast Hle.
  assert (in_cooldown st (strip card_id) (clock env) = false) as Hcool.
  { destruct (in_cooldown _ _ _) eqn:E; [|reflexivity].
    apply in_cooldown_true in E as [_ Hlt]. unfold within_cooldown in Hlt.
    congruence. }
  split; [apply (main_iter_accept _ _ _ _ _ Hread Hcool)|].
  rewrite main_iter_run, Hread. cbv zeta. rewrite Hcool.
  destruct (result_of (scan_and_log (strip card_id) env st)); [reflexivity|discriminate].
Qed.

(** Scenario E with the cooldown just over: "123" accepted at 10 s is read
    again at 12 s. *)
Lemma card_accepted_again_after_cooldown_witness :
  let env := card_world 123 12 (Returns (Some [alice])) stored (Returns tt) in
  let st := {| last_scanned_eid := Some "123"; last_scan_time := 10 |} in
  card_read on_pi env = Returns (Some ("123", ""))
  /\ last_scanned_eid st = Some (strip "123")
  /\ PrimFloat.ltb (PrimFloat.sub (clock env) (last_scan_time st)) scan_cooldown
     = false
  /\ lookups (trace_of (main_iter on_pi env st)) = [strip "123"]
  /\ (result_of (main_iter on_pi env st) = Returns tt ->
      locals_of (main_iter on_pi env st)
      = {| last_scanned_eid := Some (strip "123"); last_scan_time := clock env |}).
Proof.
  intros env st. split; [reflexivity|]. split; [reflexivity|].
  split; [reflexivity|].
  apply (card_accepted_again_after_cooldown on_pi env st "123" "");
    reflexivity.
Defined.

Lemma while_true_no_card cfg ticks st :
  Forall (fun env => card_read cfg env = Returns None) ticks ->
  remote_steps (trace_of (while_true cfg ticks st)) = []
  /\ locals_of (while_true cfg ticks st) = st
  /\ Forall (fun d => d = (1 # 10)%Q) (sleeps (trace_of (while_true cfg ticks st))).
Proof.
  induction 1 as [|env rest Henv _ IH]; simpl.
  - repeat split. constructor.
  - rewrite main_iter_run, Henv.
    destruct (sleep env) as [[]|e]; unfold trace_of, locals_of in *; simpl.
    + destruct (while_true cfg rest st) as [[r st2] tr2]. simpl in *.
      destruct IH as (H1 & H2 & H3). repeat split; try assumption.
      apply Forall_cons_2; [reflexivity | exact H3].
    + repeat split. repeat constructor.
Qed.

Lemma simulation_no_card cfg env : simulation cfg = true -> card_read cfg env = Returns None.
Proof. intros Hsim. rewrite card_read_eq, Hsim. reflexivity. Qed.

(** Without a reader (simulation mode), or while every read of the reader
    fails, the loop contacts neither the directory nor the log, keeps its
    scan state and only takes the short sleep. *)
Theorem idle_loop_contacts_nothing cfg ticks st :
  simulation cfg = true
  \/ Forall (fun env => exists e, reader_read env = Raises (Exception e)) ticks ->
  remote_steps (trace_of (while_true cfg ticks st)) = []
  /\ locals_of (while_true cfg ticks st) = st
  /\ Forall (fun d => d = (1 # 10)%Q) (sleeps (trace_of (while_true cfg ticks st))).
Proof.
  intros Hidle. apply while_true_no_card.
  destruct Hidle as [Hsim|Hfail].
  - apply Forall_forall. intros env _. apply simulation_no_card, Hsim.
  - eapply Forall_impl; [exact Hfail|]. intros env [e He].
    rewrite card_read_eq, He. destruct (simulation cfg); reflexivity.
Qed.

Lemma idle_loop_contacts_nothing_witness :
  let off := {| RASPBERRY_PI := false; reader := false |} in
  let card t := card_world 123 t (Returns (Some [alice])) stored (Returns tt) in
  let ticks := [card 10%float; card 20%float] in
  let broken := [idle_world 10 (Returns tt); idle_world 20 (Returns tt)] in
  (simulation off = true
   /\ remote_steps (trace_of (while_true off ticks initial_locals)) = []
   /\ locals_of (while_true off ticks initial_locals) = initial_locals)
  /\ (Forall (fun env => exists e, reader_read env = Raises (Exception e)) broken
      /\ remote_steps (trace_of (while_true on_pi broken initial_locals)) = []
      /\ locals_of (while_true on_pi broken initial_locals) = initial_locals).
Proof.
  intros off card ticks broken. split.
  - split; [reflexivity|].
    destruct (idle_loop_contacts_nothing off ticks initial_locals) as (H1 & H2 & _);
      [left; reflexivity|]. split; assumption.
  - assert (Forall (fun env => exists e, reader_read env = Raises (Exception e)) broken)
      as Hb by (repeat constructor; eexists; reflexivity).
    split; [exact Hb|].
    destruct (idle_loop_contacts_nothing on_pi broken initial_locals (or_intror Hb))
      as (H1 & H2 & _). split; assumption.
Defined.

(** The payload read from the card plays no part: two worlds that differ
    only in the text on the card give the same iteration. *)
Theorem card_text_ignored cfg env st text1 text2 :
  main_iter cfg (with_text text1 env) st = main_iter cfg (with_text text2 env) st.
Proof.
  assert (forall t eid, scan_and_log eid (with_text t env) st = scan_and_log eid env st)
    as Hscan by (intros t eid; rewrite !scan_and_log_run; reflexivity).
  rewrite !main_iter_run, !card_read_eq.
  destruct (simulation cfg); [reflexivity|]. simpl.
  destruct (reader_read env) as [[id text]|[|e]]; try reflexivity.
  cbv zeta. rewrite !Hscan. reflexivity.
Qed.

(** A card whose lookup fails is put under cooldown all the same: when the
    directory query of an accepted read raises, no event is appended, the
    scan state records the read, and the same card presented again while
    the computed difference of the two clock readings is below the cooldown
    is dropped, so that nothing is ever logged for it. *)
Theorem failed_lookup_starts_cooldown cfg env1 env2 st id1 text1 id2 text2 e :
  card_read cfg env1 = Returns (Some (id1, text1)) ->
  in_cooldown st (strip id1) (clock env1) = false ->
  execute env1 (Select USERS_TABLE "eid" (strip id1)) = Raises (Exception e) ->
  sleep env1 = Returns tt ->
  card_read cfg env2 = Returns (Some (id2, text2)) ->
  strip id2 = strip id1 ->
  PrimFloat.ltb (PrimFloat.sub (clock env2) (clock env1)) scan_cooldown = true ->
  let st' := {| last_scanned_eid := Some (strip id1); last_scan_time := clock env1 |} in
  while_true cfg [env1; env2] st
  = (sleep env2, st',
     [(st, Remote (Select USERS_TABLE "eid" (strip id1)));
      (st, Print (LineScanFailed e));
      (st', Sleep (1 # 2));
      (st', Sleep (1 # 10))]).
Proof.
  intros Hread1 Hcool1 Hfail Hsleep Hread2 Hsame Hlt st'.
  assert (main_iter cfg env1 st
          = (Returns tt, st',
             [(st, Remote (Select USERS_TABLE "eid" (strip id1)));
              (st, Print (LineScanFailed e)); (st', Sleep (1 # 2))])) as H1.
  { rewrite main_iter_run, Hread1. cbv zeta. rewrite Hcool1, scan_and_log_run.
    cbv zeta. rewrite Hfail, Hsleep. reflexivity. }
  assert (main_iter cfg env2 st' = (sleep env2, st', [(st', Sleep (1 # 10))])) as H2.
  { apply (main_iter_cooldown _ _ _ _ _ Hread2). apply in_cooldown_true.
    rewrite Hsame. split; [reflexivity | exact Hlt]. }
  simpl. rewrite H1, H2. destruct (sleep env2) as [[]|e2]; reflexivity.
Qed.

Lemma failed_lookup_starts_cooldown_witness :
  let down := card_world 123 10 (Raises (Exception "timed out")) stored (Returns tt) in
  let back := card_world 123 11 (Returns (Some [alice])) stored (Returns tt) in
  let st' := {| last_scanned_eid := Some "123"; last_scan_time := 10 |} in
  PrimFloat.ltb (PrimFloat.sub (clock back) (clock down)) scan_cooldown = true
  /\ while_true on_pi [down; back] initial_locals
     = (Returns tt, st',
        [(initial_locals, Remote (Select USERS_TABLE "eid" "123"));
         (initial_locals, Print (LineScanFailed "timed out"));
         (st', Sleep (1 # 2));
         (st', Sleep (1 # 10))]).
Proof.
  intros down back st'.
  split; [reflexivity|].
  apply (failed_lookup_starts_cooldown on_pi down back initial_locals
           "123" "" "123" "" "timed out");
    reflexivity.
Defined.

End RfidMore.

(** ** The directory helper: the remaining operations *)

Module SupabaseMore.
Import Py PyStr SupabaseDb SupabaseCrud PyStrFacts.

(** *** Faults and requests *)

Lemma load_users_result supabase :
  (exists users, fst (load_users supabase) = Returns users)
  \/ fst (load_users supabase) = Raises KeyboardInterrupt.
Proof.
  unfold load_users. destruct supabase as [client|]; [|left; eexists; reflexivity].
  destruct (client _) as [data|[|e]];
    [left; eexists; reflexivity | right; reflexivity | left; eexists; reflexivity].
Qed.

(** None of the directory operations lets a fault of the remote call, or of
    its own processing, reach the caller as an exception: whatever the
    client does, each returns a value (or passes on an interrupt). *)
Theorem helpers_never_raise_exception :
  (forall supabase eid, no_exception (fst (get_user_by_eid supabase eid)))
  /\ (forall supabase user_id, no_exception (fst (get_user_by_id supabase user_id)))
  /\ (forall supabase, no_exception (fst (load_users supabase)))
  /\ (forall supabase name, no_exception (fst (get_user_by_name supabase name)))
  /\ (forall supabase eid b, no_exception (fst (update_user_balance supabase eid b)))
  /\ (forall supabase user_id b,
        no_exception (fst (update_user_balance_by_id supabase user_id b)))
  /\ (forall supabase user_data, no_exception (fst (create_user supabase user_data)))
  /\ (forall supabase eid updates, no_exception (fst (update_user supabase eid updates)))
  /\ (forall supabase eid, no_exception (fst (delete_user supabase eid))).
Proof.
  repeat apply conj.
  - intros [client|] eid; [|exact I]. unfold get_user_by_eid.
    destruct (client _) as [data|[|e]]; exact I.
  - intros [client|] user_id; [|exact I]. unfold get_user_by_id.
    destruct (client _) as [data|[|e]]; exact I.
  - intros [client|]; [|exact I]. unfold load_users.
    destruct (client _) as [data|[|e]]; exact I.
  - intros supabase name. unfold get_user_by_name.
    destruct (load_users supabase) as [[users|[|e]] tr]; try exact I.
    destruct (search_by_name _ users) as [found|[|e]]; exact I.
  - intros [client|] eid b; [|exact I]. unfold update_user_balance.
    destruct (client _) as [data|[|e]]; exact I.
  - intros [client|] user_id b; [|exact I]. unfold update_user_balance_by_id.
    destruct (client _) as [data|[|e]]; exact I.
  - intros [client|] user_data; [|exact I]. unfold create_user.
    destruct (client _) as [data|[|e]]; exact I.
  - intros [client|] eid updates; [|exact I]. unfold update_user.
    destruct (client _) as [data|[|e]]; exact I.
  - intros [client|] eid; [|exact I]. unfold delete_user.
    destruct (client _) as [data|[|e]]; exact I.
Qed.

(** With a client, each operation sends exactly one request, also when the
    request fails: nothing is retried, and a search by name fetches the
    whole users table without a filter. *)
Theorem one_request_per_operation (client : Client) :
  (forall eid,
     filtered_calls (snd (get_user_by_eid (Some (narrow client)) eid))
     = [Select USERS_TABLE "eid" (strip eid)])
  /\ (forall user_id,
        filtered_calls (snd (get_user_by_id (Some (narrow client)) user_id))
        = [Select USERS_TABLE "id" user_id])
  /\ calls (snd (load_users (Some client))) = [SelectAll USERS_TABLE]
  /\ (forall name,
        calls (snd (get_user_by_name (Some client) name)) = [SelectAll USERS_TABLE])
  /\ (forall user_data,
        calls (snd (create_user (Some client) user_data)) = [Insert USERS_TABLE user_data])
  /\ (forall eid updates,
        filtered_calls (snd (update_user (Some (narrow client)) eid updates))
        = [Update USERS_TABLE updates "eid" (strip eid)])
  /\ (forall eid,
        calls (snd (delete_user (Some client) eid))
        = [Delete USERS_TABLE "eid" (strip eid)]).
Proof.
  assert (calls (snd (load_users (Some client))) = [SelectAll USERS_TABLE]) as Hload.
  { unfold load_users. destruct (client _) as [data|[|e]]; reflexivity. }
  repeat apply conj.
  - intros eid. unfold get_user_by_eid. destruct (narrow client _) as [data|[|e]]; reflexivity.
  - intros user_id. unfold get_user_by_id.
    destruct (narrow client _) as [data|[|e]]; reflexivity.
  - exact Hload.
  - intros name. unfold get_user_by_name.
    destruct (load_users (Some client)) as [[users|[|e]] tr]; simpl in *.
    + destruct (search_by_name _ users) as [found|[|e]]; simpl; try exact Hload.
      unfold calls in *. rewrite omap_app. simpl. rewrite app_nil_r. exact Hload.
    + exact Hload.
    + unfold calls in *. rewrite omap_app. simpl. rewrite app_nil_r. exact Hload.
  - intros user_data. unfold create_user. destruct (client _) as [data|[|e]]; reflexivity.
  - intros eid updates. unfold update_user.
    destruct (narrow client _) as [data|[|e]]; reflexivity.
  - intros eid. unfold delete_user. destruct (client _) as [data|[|e]]; reflexivity.
Qed.

(** The operations keyed by card id address the row by the trimmed id, so
    that trimming the id beforehand changes nothing. *)
Theorem eid_operations_use_trimmed_id :
  (forall supabase eid, get_user_by_eid supabase (strip eid) = get_user_by_eid supabase eid)
  /\ (forall supabase eid b,
        update_user_balance supabase (strip eid) b = update_user_balance supabase eid b)
  /\ (forall supabase eid updates,
        update_user supabase (strip eid) updates = update_user supabase eid updates)
  /\ (forall supabase eid, delete_user supabase (strip eid) = delete_user supabase eid).
Proof.
  repeat apply conj; intros;
    unfold get_user_by_eid, update_user_balance, update_user, delete_user;
    rewrite strip_idem; reflexivity.
Qed.

(** *** Balances and results of the mutations *)

(** A balance update is [update_user] with the balance floored at zero: the
    same request and the same result. The floor belongs to the two balance
    functions only; [update_user] writes a balance as it is given. *)
Theorem balance_update_is_floored_update_user supabase eid new_balance :
  let updates : Dict := <["current_balance" := VFloat (py_max 0%float new_balance)]> ∅ in
  fst (update_user_balance supabase eid new_balance) = fst (update_user supabase eid updates)
  /\ filtered_calls (snd (update_user_balance supabase eid new_balance))
     = filtered_calls (snd (update_user supabase eid updates))
  /\ (forall client v,
        written_balances
          (snd (update_user (Some client) eid (<["current_balance" := v]> ∅)))
        = [v]).
Proof.
  cbv zeta. unfold update_user_balance, update_user. repeat apply conj.
  - destruct supabase as [client|]; [|reflexivity].
    destruct (client _) as [data|[|e]]; reflexivity.
  - destruct supabase as [client|]; [|reflexivity].
    destruct (client _) as [data|[|e]]; reflexivity.
  - intros client v. destruct (client _) as [data|[|e]]; reflexivity.
Qed.

(** When the store changes no row (it returns no data, or an empty list),
    [update_user] tells so by returning false; [delete_user] returns true
    whenever its request returns, whether a row was deleted or not. *)
Theorem delete_reports_success_without_rows (client : Client) eid updates data data' :
  has_rows data = false ->
  narrow client (Update USERS_TABLE updates "eid" (strip eid)) = Returns data ->
  client (Delete USERS_TABLE "eid" (strip eid)) = Returns data' ->
  fst (update_user (Some (narrow client)) eid updates) = Returns false
  /\ fst (delete_user (Some client) eid) = Returns true.
Proof.
  intros Hrows Hupdate Hdelete. unfold update_user, delete_user.
  rewrite Hupdate, Hdelete, Hrows. split; reflexivity.
Qed.

Lemma delete_reports_success_without_rows_witness :
  let client := serving [] in
  has_rows (Some ([] : list Dict)) = false
  /\ fst (update_user (Some (narrow client)) "999" (<["name" := VStr "Eve"]> ∅))
     = Returns false
  /\ fst (delete_user (Some client) "999") = Returns true.
Proof.
  intros client. split; [reflexivity|].
  apply (delete_reports_success_without_rows client "999" (<["name" := VStr "Eve"]> ∅)
           (Some []) (Some [])); reflexivity.
Defined.

(** *** Search by name *)

Lemma get_user_by_name_result supabase name users :
  fst (load_users supabase) = Returns users ->
  fst (get_user_by_name supabase name) =
  match search_by_name (strip (lower name)) users with
  | Returns found => Returns found
  | Raises (Exception _) => Returns None
  | Raises KeyboardInterrupt => Raises KeyboardInterrupt
  end.
Proof.
  unfold get_user_by_name.
  destruct (load_users supabase) as [[us|[|e]] tr]; simpl; try discriminate.
  intros [= ->]. destruct (search_by_name _ users) as [found|[|e]]; reflexivity.
Qed.

Lemma search_by_name_sound q users user :
  search_by_name q users = Returns (Some user) ->
  In user users /\ name_matches q user = true.
Proof.
  induction users as [|u rest IH]; simpl; [discriminate|].
  unfold name_matches in *.
  destruct (dict_get u "name" (VStr "")) as [| | |s|] eqn:Hname; try discriminate.
  destruct (contains q (lower s)) eqn:Hc.
  - intros [= <-]. split; [left; reflexivity|]. rewrite Hname. exact Hc.
  - destruct (split (lower s)) as [|w ws] eqn:Hs; [discriminate|].
    rewrite (first_word_never_decides q s w ws Hc Hs).
    intros H. destruct (IH H) as [Hin Hm]. split; [right; exact Hin | exact Hm].
Qed.

Lemma search_by_name_find q users :
  Forall (fun u => has_name u = true) users ->
  search_by_name q users = Returns (List.find (name_matches q) users).
Proof.
  induction 1 as [|u rest Hu _ IH]; simpl; [reflexivity|].
  unfold name_matches, has_name in *.
  destruct (dict_get u "name" (VStr "")) as [| | |s|]; try discriminate.
  destruct (contains q (lower s)) eqn:Hc; [reflexivity|].
  rewrite split_lower.
  destruct (split s) as [|w0 ws0] eqn:Hs; [discriminate|]. cbn [map].
  assert (split (lower s) = lower w0 :: map lower ws0) as Hs'
    by (rewrite split_lower, Hs; reflexivity).
  rewrite (first_word_never_decides q s _ _ Hc Hs'). exact IH.
Qed.

Lemma search_by_name_skip q pre rest :
  Forall (fun u => has_name u = true) pre ->
  Forall (fun u => name_matches q u = false) pre ->
  search_by_name q (pre ++ rest) = search_by_name q rest.
Proof.
  induction 1 as [|u pre Hu _ IH]; intros Hno; [reflexivity|].
  apply Forall_cons in Hno as [Hq Hno]. simpl.
  unfold name_matches, has_name in *.
  destruct (dict_get u "name" (VStr "")) as [| | |s|]; try discriminate.
  rewrite Hq, split_lower.
  destruct (split s) as [|w0 ws0] eqn:Hs; [discriminate|]. cbn [map].
  assert (split (lower s) = lower w0 :: map lower ws0) as Hs'
    by (rewrite split_lower, Hs; reflexivity).
  rewrite (first_word_never_decides q s _ _ Hq Hs'). apply IH, Hno.
Qed.

(** A user returned by the search by name is one of the loaded users, and
    the query, lower-cased and trimmed, occurs in its lower-cased name. *)
Theorem name_search_sound supabase name user :
  fst (get_user_by_name supabase name) = Returns (Some user) ->
  exists users,
    fst (load_users supabase) = Returns users
    /\ In user users
    /\ name_matches (strip (lower name)) user = true.
Proof.
  intros Hfound.
  destruct (load_users_result supabase) as [[users Hload]|Hki].
  - exists users. split; [exact Hload|].
    rewrite (get_user_by_name_result _ _ _ Hload) in Hfound.
    apply search_by_name_sound.
    destruct (search_by_name _ users) as [found|[|e]]; congruence.
  - unfold get_user_by_name in Hfound.
    destruct (load_users supabase) as [[us|[|e]] tr]; simpl in *; discriminate.
Qed.

Lemma name_search_sound_witness :
  fst (get_user_by_name (Some (serving [alice; bob])) " STONE ") = Returns (Some bob)
  /\ exists users,
       fst (load_users (Some (serving [alice; bob]))) = Returns users
       /\ In bob users
       /\ name_matches (strip (lower " STONE ")) bob = true.
Proof.
  split; [reflexivity|].
  apply (name_search_sound (Some (serving [alice; bob])) " STONE " bob). reflexivity.
Defined.

(** When every loaded user has a name with at least one word, the search
    by name returns the first user whose lower-cased name contains the
    query, and [None] when there is none: the test on the first word of the
    name never adds a match. *)
Theorem name_search_is_first_match supabase name users :
  fst (load_users supabase) = Returns users ->
  Forall (fun u => has_name u = true) users ->
  fst (get_user_by_name supabase name)
  = Returns (List.find (name_matches (strip (lower name))) users).
Proof.
  intros Hload Hnames. rewrite (get_user_by_name_result _ _ _ Hload).
  rewrite (search_by_name_find _ _ Hnames). reflexivity.
Qed.

Lemma name_search_is_first_match_witness :
  fst (load_users (Some (serving [alice; bob]))) = Returns [alice; bob]
  /\ Forall (fun u => has_name u = true) [alice; bob]
  /\ fst (get_user_by_name (Some (serving [alice; bob])) "bob")
     = Returns (List.find (name_matches (strip (lower "bob"))) [alice; bob])
  /\ List.find (name_matches (strip (lower "bob"))) [alice; bob] = Some bob.
Proof.
  assert (Forall (fun u => has_name u = true) [alice; bob]) as Hnames
    by (repeat constructor).
  split; [reflexivity|]. split; [exact Hnames|].
  split; [|reflexivity].
  apply (name_search_is_first_match (Some (serving [alice; bob])) "bob" [alice; bob]);
    [reflexivity | exact Hnames].
Defined.

(** A user without a usable name ends the search: when the users before it
    do not match and its own name is null, not a string, or blank (and the
    query is not empty), the search returns [None], whatever users follow
    it in the table. *)
Theorem name_search_stops_at_unnamed_user supabase name pre bad post :
  fst (load_users supabase) = Returns (pre ++ bad :: post) ->
  Forall (fun u => has_name u = true) pre ->
  Forall (fun u => name_matches (strip (lower name)) u = false) pre ->
  has_name bad = false ->
  name_matches (strip (lower name)) bad = false ->
  fst (get_user_by_name supabase name) = Returns None.
Proof.
  intros Hload Hpre Hno Hbad Hq. rewrite (get_user_by_name_result _ _ _ Hload).
  rewrite (search_by_name_skip _ _ _ Hpre Hno). simpl.
  unfold name_matches, has_name in *.
  destruct (dict_get bad "name" (VStr "")) as [| | |s|]; try reflexivity.
  rewrite Hq, split_lower. destruct (split s); [reflexivity | discriminate].
Qed.

(** Bob is in the table, but behind a user whose name is blank, and
    behind one whose name is null. *)
Lemma name_search_stops_at_unnamed_user_witness :
  (fst (load_users (Some (serving [alice; blank; bob]))) = Returns ([alice] ++ blank :: [bob])
   /\ has_name blank = false
   /\ fst (get_user_by_name (Some (serving [alice; blank; bob])) "bob") = Returns None)
  /\ (has_name unnamed = false
      /\ fst (get_user_by_name (Some (serving [unnamed; bob])) "bob") = Returns None).
Proof.
  split.
  - split; [reflexivity|]. split; [reflexivity|].
    apply (name_search_stops_at_unnamed_user _ "bob" [alice] blank [bob]);
      try reflexivity; repeat constructor.
  - split; [reflexivity|].
    apply (name_search_stops_at_unnamed_user _ "bob" [] unnamed [bob]);
      try reflexivity; constructor.
Defined.

(** An empty query (empty, or only whitespace) matches the first loaded
    user, provided its name is a string or is missing; without users the
    search returns [None]. *)
Theorem empty_name_matches_first_user supabase name user rest s :
  strip (lower name) = "" ->
  fst (load_users supabase) = Returns (user :: rest) ->
  dict_get user "name" (VStr "") = VStr s ->
  fst (get_user_by_name supabase name) = Returns (Some user).
Proof.
  intros Hq Hload Hname. rewrite (get_user_by_name_result _ _ _ Hload), Hq.
  simpl. rewrite Hname, contains_empty. reflexivity.
Qed.

Lemma empty_name_matches_first_user_witness :
  strip (lower "  ") = ""
  /\ fst (get_user_by_name (Some (serving [alice; bob])) "  ") = Returns (Some alice).
Proof.
  split; [reflexivity|].
  apply (empty_name_matches_first_user _ "  " alice [bob] "Alice"); reflexivity.
Defined.

(** *** Conversions, the other way round *)

Section MoreConversions.
Context `{Builtins}.

(** Converting a database row to the API format and back keeps the card id
    as a string, the name, the contact number and the balance as a float;
    it drops every other column ([id], [created_at]) and sets [state] to
    true, whatever it was in the row. *)
Theorem db_round_trip_resets_state (db : Dict) (balance : float) :
  py_float (dict_get db "current_balance" (VFloat 0%float)) = Returns balance ->
  exists api,
    convert_to_api_format db = Returns api
    /\ convert_from_api_format api
       = Returns
           (<["eid" := VStr (py_str (dict_get db "eid" (VStr "")))]>
           (<["name" := dict_get db "name" (VStr "")]>
           (<["contact_number" := dict_get db "contact_number" (VStr "")]>
           (<["current_balance" := VFloat balance]>
           (<["state" := VBool true]> ∅))))).
Proof.
  intros Hbalance. unfold convert_to_api_format. rewrite Hbalance.
  eexists. split; [reflexivity|].
  unfold convert_from_api_format, dict_get. reflexivity.
Qed.

(** A balance that is absent reads as 0.0, in both directions; a balance
    that is null makes the conversion raise, and nothing in the conversions
    catches it. *)
Theorem absent_balance_defaults_null_balance_raises (user : Dict) :
  (user !! "current_balance" = None ->
   exists api, convert_to_api_format user = Returns api
               /\ api !! "balance" = Some (VFloat 0%float))
  /\ (user !! "current_balance" = Some VNone ->
      exists e, convert_to_api_format user = Raises (Exception e))
  /\ (user !! "balance" = None ->
      exists db, convert_from_api_format user = Returns db
                 /\ db !! "current_balance" = Some (VFloat 0%float))
  /\ (user !! "balance" = Some VNone ->
      exists e, convert_from_api_format user = Raises (Exception e)).
Proof.
  unfold convert_to_api_format, convert_from_api_format, dict_get.
  repeat apply conj; intros ->; simpl; eexists; (split; reflexivity) || reflexivity.
Qed.

End MoreConversions.

Lemma db_round_trip_resets_state_witness :
  let row : Dict :=
    <["state" := VBool false]> (<["created_at" := VStr "2024-01-01"]> alice) in
  (forall builtins : Builtins,
     py_float (dict_get row "current_balance" (VFloat 0%float))
     = Returns 50%float)
  /\ (forall builtins : Builtins,
        exists api,
          convert_to_api_format row = Returns api
          /\ convert_from_api_format api
             = Returns
                 (<["eid" := VStr "123"]>
                 (<["name" := VStr "Alice"]>
                 (<["contact_number" := VStr ""]>
                 (<["current_balance" := VFloat 50%float]>
                 (<["state" := VBool true]> ∅)))))).
Proof.
  intros row. split; [reflexivity|].
  intros builtins. apply (db_round_trip_resets_state row 50%float). reflexivity.
Defined.

Lemma absent_balance_defaults_null_balance_raises_witness :
  let empty : Dict := ∅ in
  let null : Dict :=
    <["balance" := VNone]> (<["current_balance" := VNone]> ∅) in
  empty !! "current_balance" = None
  /\ null !! "current_balance" = Some VNone
  /\ (forall builtins : Builtins,
        (exists api, convert_to_api_format empty = Returns api
                     /\ api !! "balance" = Some (VFloat 0%float))
        /\ (exists e, convert_to_api_format null = Raises (Exception e))
        /\ (exists db, convert_from_api_format empty = Returns db
                       /\ db !! "current_balance" = Some (VFloat 0%float))
        /\ (exists e, convert_from_api_format null
                      = Raises (Exception e))).
Proof.
  intros empty null. split; [reflexivity|]. split; [reflexivity|].
  intros builtins.
  pose proof (absent_balance_defaults_null_balance_raises empty) as (H1 & _ & H3 & _).
  pose proof (absent_balance_defaults_null_balance_raises null) as (_ & H2 & _ & H4).
  split; [apply H1; reflexivity|]. split; [apply H2; reflexivity|].
  split; [apply H3; reflexivity | apply H4; reflexivity].
Defined.

End SupabaseMore.

(** ** Start-up *)

Module StartupFacts.
Import Py PyStr Rfid RfidObs Startup Hosts RfidFacts RfidMore.



(** When the script gets to [main], [RASPBERRY_PI] and [reader] agree, and
    they are set exactly when the hardware libraries import and the reader
    object can be created. When they are not set, the service runs as a
    no-op: [main] contacts neither the directory nor the log, and its
    [finally] block has no cleanup to run. *)
Theorem rfid_startup_config {C : Type} (h : Host C) cfg (client : C) :
  fst (rfid_startup h) = Ready cfg client ->
  RASPBERRY_PI cfg = reader cfg
  /\ (reader cfg = true <-> hardware_libs h = true /\ new_reader h = Returns tt)
  /\ (reader cfg = false ->
      forall ticks st,
        remote_steps (snd (main cfg ticks)) = [] /\ finally cfg st = []).
Proof.
  intros Hready.
  assert (cfg = {| RASPBERRY_PI := true; reader := true |}
          /\ hardware_libs h = true /\ new_reader h = Returns tt
          \/ cfg = {| RASPBERRY_PI := false; reader := false |}
             /\ (hardware_libs h = false
                 \/ exists e, new_reader h = Raises (Exception e))) as Hcfg.
  { unfold rfid_startup in Hready.
    destruct (supabase_lib h); simpl in Hready; [|discriminate].
    destruct (environ h !! "SUPABASE_URL") as [url|]; [|discriminate].
    destruct (py_or _ _) as [key|]; [|discriminate].
    destruct (negb (str_truthy url) || negb (str_truthy key)); [discriminate|].
    destruct (create_client h url key) as [c|err]; [|discriminate].
    destruct (hardware_libs h).
    - destruct (new_reader h) as [[]|[|e]]; simpl in Hready;
        try discriminate; injection Hready as <- _; [left | right]; eauto.
    - simpl in Hready. injection Hready as <- _. right. auto. }
  destruct Hcfg as [(-> & Hhw & Hnew)|(-> & Hno)]; simpl.
  - repeat split; auto; discriminate.
  - split; [reflexivity|]. split.
    + split; [discriminate|]. intros [Hhw Hnew].
      destruct Hno as [Hno|[e Hno]]; congruence.
    + intros _ ticks st. split; [|reflexivity].
      set (off := {| RASPBERRY_PI := false; reader := false |}).
      assert (Forall (fun env => card_read off env = Returns None) ticks) as Hnone
        by (apply Forall_forall; intros env _; apply simulation_no_card; reflexivity).
      destruct (while_true_no_card off ticks initial_locals Hnone) as (Hrem & _ & _).
      unfold main. destruct (while_true off ticks initial_locals) as [[[u|e] st1] tr];
        unfold trace_of in Hrem; simpl in *.
      * exact Hrem.
      * rewrite remote_steps_app, Hrem. reflexivity.
Qed.

Lemma rfid_startup_config_witness :
  let h := pi_without_reader tt full_env in
  let off := {| RASPBERRY_PI := false; reader := false |} in
  let card := card_world 123 10 (Returns (Some [alice])) stored (Returns tt) in
  fst (rfid_startup h) = Ready off tt
  /\ RASPBERRY_PI off = reader off
  /\ remote_steps (snd (main off [card; card])) = [].
Proof.
  intros h off card.
  assert (fst (rfid_startup h) = Ready off tt) as Hready by reflexivity.
  destruct (rfid_startup_config h off tt Hready) as (H1 & _ & H3).
  split; [exact Hready|]. split; [exact H1|].
  apply (H3 eq_refl [card; card] initial_locals).
Defined.

End StartupFacts.

Module DbStartupFacts.
Import Py PyStr Startup Hosts SupabaseDb SupabaseCrud.

(** Every operation, called without a client. *)
Lemma no_client_no_request :
  load_users None = (Returns [], [])
  /\ (forall name, get_user_by_name None name = (Returns None, []))
  /\ (forall eid, get_user_by_eid None eid = (Returns None, []))
  /\ (forall user_id, get_user_by_id None user_id = (Returns None, []))
  /\ (forall eid b, update_user_balance None eid b = (Returns false, []))
  /\ (forall user_id b, update_user_balance_by_id None user_id b = (Returns false, []))
  /\ (forall user_data, create_user None user_data = (Returns None, []))
  /\ (forall eid updates, update_user None eid updates = (Returns false, []))
  /\ (forall eid, delete_user None eid = (Returns false, [])).
Proof. repeat apply conj; reflexivity. Qed.

(** Missing credentials disable the helper instead of stopping it: when
    SUPABASE_URL or SUPABASE_KEY is unset or empty, or when creating the
    client fails, the module still loads, and every operation returns its
    empty value ([], None or False) without sending a request. *)
Theorem db_disabled_without_credentials (h : Host Client) :
  supabase_lib h = true ->
  opt_truthy (environ h !! "SUPABASE_URL") = false
  \/ opt_truthy (environ h !! "SUPABASE_KEY") = false
  \/ (exists url key e,
        environ h !! "SUPABASE_URL" = Some url
        /\ environ h !! "SUPABASE_KEY" = Some key
        /\ create_client h url key = Raises (Exception e)) ->
  exists supabase,
    fst (db_startup h) = Returns supabase
    /\ load_users supabase = (Returns [], [])
    /\ (forall name, get_user_by_name supabase name = (Returns None, []))
    /\ (forall eid, get_user_by_eid (narrow <$> supabase) eid = (Returns None, []))
    /\ (forall user_id, get_user_by_id (narrow <$> supabase) user_id = (Returns None, []))
    /\ (forall eid b,
          update_user_balance (narrow <$> supabase) eid b = (Returns false, []))
    /\ (forall user_id b,
          update_user_balance_by_id (narrow <$> supabase) user_id b = (Returns false, []))
    /\ (forall user_data, create_user supabase user_data = (Returns None, []))
    /\ (forall eid updates,
          update_user (narrow <$> supabase) eid updates = (Returns false, []))
    /\ (forall eid, delete_user supabase eid = (Returns false, [])).
Proof.
  intros Hlib Hmissing. exists None. split; [|exact no_client_no_request].
  unfold db_startup. rewrite Hlib. simpl.
  destruct Hmissing as [Hurl|[Hkey|(url & key & e & -> & -> & Hfail)]].
  - destruct (environ h !! "SUPABASE_URL") as [[|c url]|];
      destruct (environ h !! "SUPABASE_KEY") as [key|]; simpl in *;
      reflexivity || discriminate.
  - destruct (environ h !! "SUPABASE_URL") as [url|];
      destruct (environ h !! "SUPABASE_KEY") as [[|c key]|]; simpl in *;
      try reflexivity; try discriminate.
    destruct (str_truthy url); reflexivity.
  - rewrite Hfail. destruct (str_truthy url && str_truthy key); reflexivity.
Qed.

Lemma db_disabled_without_credentials_witness :
  let h := pi_host (serving [alice]) role_key_only in
  supabase_lib h = true
  /\ opt_truthy (environ h !! "SUPABASE_KEY") = false
  /\ exists supabase,
       fst (db_startup h) = Returns supabase
       /\ load_users supabase = (Returns [], [])
       /\ (forall name, get_user_by_name supabase name = (Returns None, []))
       /\ (forall eid, get_user_by_eid (narrow <$> supabase) eid = (Returns None, []))
       /\ (forall user_id, get_user_by_id (narrow <$> supabase) user_id = (Returns None, []))
       /\ (forall eid b,
             update_user_balance (narrow <$> supabase) eid b = (Returns false, []))
       /\ (forall user_id b,
             update_user_balance_by_id (narrow <$> supabase) user_id b
             = (Returns false, []))
       /\ (forall user_data, create_user supabase user_data = (Returns None, []))
       /\ (forall eid updates,
             update_user (narrow <$> supabase) eid updates = (Returns false, []))
       /\ (forall eid, delete_user supabase eid = (Returns false, [])).
Proof.
  intros h. split; [reflexivity|]. split; [reflexivity|].
  apply (db_disabled_without_credentials h); [reflexivity|].
  right; left. reflexivity.
Defined.

(** The fallback to SUPABASE_SERVICE_ROLE_KEY exists in the RFID script
    only: with SUPABASE_URL and the service-role key set and SUPABASE_KEY
    unset or empty, the RFID script passes its credential check and creates
    its client with the service-role key, while the helper module loads
    with its client disabled. *)
Theorem role_key_fallback_in_rfid_only {C : Type} (h : Host C) url role :
  supabase_lib h = true ->
  environ h !! "SUPABASE_URL" = Some url -> str_truthy url = true ->
  opt_truthy (environ h !! "SUPABASE_KEY") = false ->
  environ h !! "SUPABASE_SERVICE_ROLE_KEY" = Some role -> str_truthy role = true ->
  (forall code, fst (rfid_startup h) <> Exit code)
  /\ (forall e, create_client h url role = Raises e -> fst (rfid_startup h) = Crashed e)
  /\ (forall cfg client,
        fst (rfid_startup h) = Ready cfg client ->
        create_client h url role = Returns client)
  /\ fst (db_startup h) = Returns None.
Proof.
  intros Hlib Hurl Hu Hkey Hrole Hr.
  assert (py_or (environ h !! "SUPABASE_KEY") (environ h !! "SUPABASE_SERVICE_ROLE_KEY")
          = Some role) as Hor by (unfold py_or; rewrite Hkey; exact Hrole).
  unfold rfid_startup, db_startup. rewrite Hlib, Hor, Hurl, Hu, Hr. simpl.
  repeat apply conj.
  - intros code. destruct (create_client h url role) as [client|e]; [|discriminate].
    destruct (hardware_libs h); [destruct (new_reader h) as [[]|[|e]]|]; discriminate.
  - intros e ->. reflexivity.
  - intros cfg client. destruct (create_client h url role) as [c|e]; [|discriminate].
    destruct (hardware_libs h); [destruct (new_reader h) as [[]|[|e]]|];
      simpl; try discriminate; intros [= _ <-]; reflexivity.
  - destruct (environ h !! "SUPABASE_KEY") as [[|c key]|]; simpl in *;
      reflexivity || discriminate.
Qed.

Lemma role_key_fallback_in_rfid_only_witness :
  let h := pi_host (serving [alice]) role_key_only in
  supabase_lib h = true
  /\ environ h !! "SUPABASE_URL" = Some "https://kiosk.supabase.co"
  /\ opt_truthy (environ h !! "SUPABASE_KEY") = false
  /\ environ h !! "SUPABASE_SERVICE_ROLE_KEY" = Some "role-key"
  /\ fst (rfid_startup h)
     = Ready {| Rfid.RASPBERRY_PI := true; Rfid.reader := true |} (serving [alice])
  /\ (forall code, fst (rfid_startup h) <> Exit code)
  /\ fst (db_startup h) = Returns None.
Proof.
  intros h.
  destruct (role_key_fallback_in_rfid_only h "https://kiosk.supabase.co" "role-key")
    as (H1 & _ & _ & H4); try reflexivity.
  repeat (split; [reflexivity|]). split; [exact H1 | exact H4].
Defined.

End DbStartupFacts.

(** ** The loop and the helper *)

Module CrossFacts.
Import Py.

(** The scan loop and the lookup of the helper address the directory in the
    same way: for a card the loop accepts, the table, the column and the
    trimmed identifier of the loop's query are those of the request that
    [get_user_by_eid] sends for the same card id. *)
Theorem loop_and_helper_use_same_key cfg env st card_id card_text
  (client : SupabaseDb.Client) :
  Rfid.card_read cfg env = Returns (Some (card_id, card_text)) ->
  Rfid.in_cooldown st (strip card_id) (Rfid.clock env) = false ->
  exists table column eid,
    Rfid.remote_steps (Rfid.trace_of (Rfid.main_iter cfg env st))
    !! 0%nat = Some (st, Rfid.Select table column eid)
    /\ SupabaseCrud.filtered_calls
         (snd (SupabaseDb.get_user_by_eid (Some client) card_id))
       = [SupabaseDb.Select table column eid].
Proof.
  intros Hread Hcool.
  exists "users", "eid", (strip card_id). split.
  - destruct (RfidFacts.main_iter_accept cfg env st card_id card_text Hread Hcool)
      as [_ [tr Htr]].
    destruct (RfidFacts.scan_and_log_first_step (strip card_id) env st) as [tr0 Hfirst].
    rewrite Htr, Hfirst. reflexivity.
  - unfold SupabaseDb.get_user_by_eid.
    destruct (client _) as [data|[|e]]; reflexivity.
Qed.

Lemma loop_and_helper_use_same_key_witness :
  let env := Rfid.card_world 123 10 (Returns (Some [Rfid.alice])) Rfid.stored (Returns tt) in
  Rfid.card_read Rfid.on_pi env = Returns (Some ("123", ""))
  /\ Rfid.in_cooldown Rfid.initial_locals (strip "123") (Rfid.clock env) = false
  /\ exists table column eid,
       Rfid.remote_steps (Rfid.trace_of (Rfid.main_iter Rfid.on_pi env Rfid.initial_locals))
       !! 0%nat = Some (Rfid.initial_locals, Rfid.Select table column eid)
       /\ SupabaseCrud.filtered_calls
            (snd (SupabaseDb.get_user_by_eid
                    (Some (SupabaseDb.table_client [SupabaseDb.alice])) "123"))
          = [SupabaseDb.Select table column eid].
Proof.
  intros env. split; [reflexivity|]. split; [reflexivity|].
  apply (loop_and_helper_use_same_key Rfid.on_pi env Rfid.initial_locals "123" "");
    reflexivity.
Defined.

End CrossFacts.
